(** * get_data.py: match flattening and spreadsheet reconciliation

    A shallow embedding of the record-flattening and reconciliation pipeline
    of [get_data.py]: [process_score_breakdown], [process_match],
    [fetch_event_matches], [reorder_columns], [update_file] and the two
    drivers [load_all_events] and [add_replace_selected].

    Python values are the values [response.json()] can deliver.  Functions
    that can raise return a [result]; [error_list], the spreadsheet file and
    the message boxes are threaded explicitly. *)

From Stdlib Require Import List String Ascii ZArith Bool Arith Lia.
From Stdlib Require Import DecimalString DecimalPos Permutation.
Import ListNotations.
Open Scope string_scope.
Open Scope nat_scope.

(** ** Exceptions and the error monad *)

Module Py.

(** The exception classes the modelled code can raise.  All of them derive
    from [Exception], so both the bare [except:] of [process_match] and the
    [except Exception] of [fetch_event_matches] catch every one of them. *)
Inductive exn : Type :=
| AttributeError
| TypeError
| KeyError
| IndexError
| ValueError
| IllegalCharacterError.

Inductive result (A : Type) : Type :=
| Ok (a : A)
| Raise (e : exn).

Arguments Ok {A} a.
Arguments Raise {A} e.

Definition bind {A B : Type} (m : result A) (k : A -> result B) : result B :=
  match m with
  | Ok a => k a
  | Raise e => Raise e
  end.

(** [try: m  except: h] *)
Definition try_except {A : Type} (m : result A) (h : exn -> A) : A :=
  match m with
  | Ok a => a
  | Raise e => h e
  end.

End Py.

Import Py.

Notation "x <- m ;; k" := (bind m (fun x => k))
  (at level 61, m at next level, right associativity).

(** ** Python values

    What [json] parsing produces: [None], booleans, integers, floats,
    strings, lists and dicts with string keys.  A string is a sequence of
    code points below 256, one per [ascii].  A float is carried by its
    [repr] (the shortest decimal text that reads back as the same float):
    the program only ever formats a float, tests its truth value or copies
    it.  A dict is an association list in insertion order; the dicts Python
    builds have pairwise distinct keys. *)

Unset Elimination Schemes.
Inductive value : Type :=
| VNone
| VBool (b : bool)
| VInt (z : Z)
| VFloat (repr : string)
| VStr (s : string)
| VList (l : list value)
| VDict (d : list (string * value)).
Set Elimination Schemes.

Definition dict : Type := list (string * value).

Section value_induction.
Variable P : value -> Prop.
Hypothesis HNone : P VNone.
Hypothesis HBool : forall b, P (VBool b).
Hypothesis HInt : forall z, P (VInt z).
Hypothesis HFloat : forall r, P (VFloat r).
Hypothesis HStr : forall s, P (VStr s).
Hypothesis HList : forall l, Forall P l -> P (VList l).
Hypothesis HDict : forall d, Forall (fun kv => P (snd kv)) d -> P (VDict d).

Fixpoint value_ind (v : value) : P v :=
  match v with
  | VNone => HNone
  | VBool b => HBool b
  | VInt z => HInt z
  | VFloat r => HFloat r
  | VStr s => HStr s
  | VList l =>
      HList l ((fix all (l : list value) : Forall P l :=
                match l with
                | [] => Forall_nil P
                | x :: l' => Forall_cons x (value_ind x) (all l')
                end) l)
  | VDict d =>
      HDict d ((fix all (d : dict) : Forall (fun kv => P (snd kv)) d :=
                match d with
                | [] => Forall_nil _
                | kv :: d' =>
                    Forall_cons (P := fun kv => P (snd kv)) kv
                      (value_ind (snd kv)) (all d')
                end) d)
  end.
End value_induction.

(** Structural equality of values, used to compare spreadsheet cells. *)
Fixpoint value_eqb (a b : value) : bool :=
  match a, b with
  | VNone, VNone => true
  | VBool x, VBool y => Bool.eqb x y
  | VInt x, VInt y => Z.eqb x y
  | VFloat x, VFloat y => String.eqb x y
  | VStr x, VStr y => String.eqb x y
  | VList x, VList y =>
      (fix go (x y : list value) : bool :=
         match x, y with
         | [], [] => true
         | a :: x', b :: y' => value_eqb a b && go x' y'
         | _, _ => false
         end) x y
  | VDict x, VDict y =>
      (fix go (x y : dict) : bool :=
         match x, y with
         | [], [] => true
         | (k, a) :: x', (k', b) :: y' =>
             String.eqb k k' && value_eqb a b && go x' y'
         | _, _ => false
         end) x y
  | _, _ => false
  end.

(** ** Dicts: [d.get(k)], [d[k] = v], [k in d], [d.update(e)] *)

Fixpoint dict_get (d : dict) (k : string) : option value :=
  match d with
  | [] => None
  | (k', v) :: d' => if String.eqb k k' then Some v else dict_get d' k
  end.

Definition dict_mem (d : dict) (k : string) : bool :=
  match dict_get d k with Some _ => true | None => false end.

(** [d[k] = v]: an existing key keeps its position, a new key goes last. *)
Fixpoint dict_set (d : dict) (k : string) (v : value) : dict :=
  match d with
  | [] => [(k, v)]
  | (k', v') :: d' =>
      if String.eqb k k' then (k, v) :: d' else (k', v') :: dict_set d' k v
  end.

(** [d.update(e)] *)
Definition dict_update (d e : dict) : dict :=
  fold_left (fun acc kv => dict_set acc (fst kv) (snd kv)) e d.

Definition keys (d : dict) : list string := map fst d.

(** [x in xs] for a list or set of strings. *)
Definition str_in (x : string) (xs : list string) : bool :=
  existsb (String.eqb x) xs.

(** ** Built-ins on strings *)

Definition chars (s : string) : list ascii := list_ascii_of_string s.

Definition code (c : ascii) : nat := nat_of_ascii c.

(** [str(n)] for an integer. *)
Definition str_of_Z (z : Z) : string := NilZero.string_of_int (Z.to_int z).

Definition hex_digit (n : nat) : ascii :=
  nth n (chars "0123456789abcdef") "0"%char.

Definition is_printable (c : ascii) : bool :=
  let n := code c in
  ((32 <=? n) && (n <=? 126)) || ((161 <=? n) && negb (n =? 173)).

(** One character of [repr(s)], inside the quote character [q]. *)
Definition repr_char (q : ascii) (c : ascii) : string :=
  let n := code c in
  if Ascii.eqb c "\"%char then "\\"
  else if Ascii.eqb c q then String "\"%char (String q EmptyString)
  else if n =? 9 then "\t"
  else if n =? 10 then "\n"
  else if n =? 13 then "\r"
  else if is_printable c then String c EmptyString
  else "\x" ++ String (hex_digit (n / 16)) (String (hex_digit (n mod 16)) EmptyString).

Definition has_char (c : ascii) (s : string) : bool :=
  existsb (Ascii.eqb c) (chars s).

Definition dquote : ascii := ascii_of_nat 34.

(** [repr(s)] for a string: single quotes, unless the text has a single
    quote and no double quote. *)
Definition repr_str (s : string) : string :=
  let q := if has_char "'"%char s && negb (has_char dquote s)
           then dquote else "'"%char in
  String q (String.concat EmptyString (map (repr_char q) (chars s)))
    ++ String q EmptyString.

(** [repr(v)] *)
Fixpoint py_repr (v : value) : string :=
  match v with
  | VNone => "None"
  | VBool true => "True"
  | VBool false => "False"
  | VInt z => str_of_Z z
  | VFloat r => r
  | VStr s => repr_str s
  | VList l => "[" ++ String.concat ", " (map py_repr l) ++ "]"
  | VDict d =>
      "{" ++ String.concat ", "
               (map (fun kv => repr_str (fst kv) ++ ": " ++ py_repr (snd kv)) d)
          ++ "}"
  end.

(** [str(v)], which is what an f-string field [{v}] inserts. *)
Definition py_str (v : value) : string :=
  match v with
  | VStr s => s
  | _ => py_repr v
  end.

(** [s.startswith(p)] *)
Definition startswith (p s : string) : bool := String.prefix p s.

(** [s.replace(old, new)] for a non-empty [old]: occurrences are replaced
    from the left and do not overlap; [skip] counts the characters of the
    occurrence just replaced that are still to be passed over. *)
Fixpoint replace_from (old new : string) (skip : nat) (s : string) : string :=
  match s with
  | EmptyString => EmptyString
  | String c s' =>
      match skip with
      | S k => replace_from old new k s'
      | O =>
          if startswith old s
          then new ++ replace_from old new (String.length old - 1) s'
          else String c (replace_from old new 0 s')
      end
  end.

Definition str_replace (s old new : string) : string :=
  replace_from old new 0 s.

(** White space as [int()] strips it, for code points below 256: tab to
    carriage return, the space, U+0085 and U+00A0.  (The separators U+001C
    to U+001F, which [str.isspace] accepts, are not stripped by [int()].) *)
Definition is_space (c : ascii) : bool :=
  let n := code c in
  ((9 <=? n) && (n <=? 13)) || (n =? 32) || (n =? 133) || (n =? 160).

Definition is_digit (c : ascii) : bool :=
  let n := code c in (48 <=? n) && (n <=? 57).

Fixpoint lstrip (s : list ascii) : list ascii :=
  match s with
  | c :: s' => if is_space c then lstrip s' else s
  | [] => []
  end.

Definition strip (s : list ascii) : list ascii :=
  rev (lstrip (rev (lstrip s))).

(** The digits of an integer literal: single underscores are allowed between
    digits.  Returns the number read and how many digits it has. *)
Fixpoint read_digits (acc : Z) (n : nat) (after_digit : bool)
    (s : list ascii) : option (Z * nat) :=
  match s with
  | [] => if after_digit then Some (acc, n) else None
  | c :: s' =>
      if is_digit c
      then read_digits (10 * acc + Z.of_nat (code c - 48)) (S n) true s'
      else if Ascii.eqb c "_"%char && after_digit
           then read_digits acc n false s'
           else None
  end.

(** CPython's default [sys.int_max_str_digits]. *)
Definition int_max_str_digits : nat := 4300.

(** [int(s)] for a string, base 10. *)
Definition py_int (s : string) : result Z :=
  let body := strip (chars s) in
  let '(neg, ds) :=
    match body with
    | c :: t =>
        if Ascii.eqb c "-"%char then (true, t)
        else if Ascii.eqb c "+"%char then (false, t)
        else (false, body)
    | [] => (false, body)
    end in
  match read_digits 0 0 false ds with
  | Some (z, n) =>
      if n <=? int_max_str_digits
      then Ok (if neg then (- z)%Z else z)
      else Raise ValueError
  | None => Raise ValueError
  end.

(** ** Built-ins on values *)

(** Truth value, as [if v:] tests it. *)
Definition truthy (v : value) : bool :=
  match v with
  | VNone => false
  | VBool b => b
  | VInt z => negb (Z.eqb z 0)
  | VFloat r => negb (String.eqb r "0.0" || String.eqb r "-0.0")
  | VStr s => negb (String.eqb s EmptyString)
  | VList l => match l with [] => false | _ => true end
  | VDict d => match d with [] => false | _ => true end
  end.

(** [v.get(k, default)]: only a dict has the method. *)
Definition py_get (v : value) (k : string) (default : value) : result value :=
  match v with
  | VDict d =>
      Ok (match dict_get d k with Some x => x | None => default end)
  | _ => Raise AttributeError
  end.

(** [v[k]] for a string key. *)
Definition py_getitem (v : value) (k : string) : result value :=
  match v with
  | VDict d =>
      match dict_get d k with Some x => Ok x | None => Raise KeyError end
  | _ => Raise TypeError
  end.

(** [v.items()] *)
Definition py_items (v : value) : result dict :=
  match v with
  | VDict d => Ok d
  | _ => Raise AttributeError
  end.

(** [len(v)] *)
Definition py_len (v : value) : result nat :=
  match v with
  | VStr s => Ok (String.length s)
  | VList l => Ok (List.length l)
  | VDict d => Ok (List.length d)
  | _ => Raise TypeError
  end.

(** [v[i]] for an integer index [i >= 0]; a dict parsed from JSON has no
    integer key. *)
Definition py_index (v : value) (i : nat) : result value :=
  match v with
  | VStr s =>
      match String.get i s with
      | Some c => Ok (VStr (String c EmptyString))
      | None => Raise IndexError
      end
  | VList l =>
      match nth_error l i with
      | Some x => Ok x
      | None => Raise IndexError
      end
  | VDict _ => Raise KeyError
  | _ => Raise TypeError
  end.

(** [v.replace(old, new)]: only a string has the method. *)
Definition py_replace (v : value) (old new : string) : result string :=
  match v with
  | VStr s => Ok (str_replace s old new)
  | _ => Raise AttributeError
  end.

(** Iterating [v], as [for x in v] and [enumerate(v)] do. *)
Definition py_iter (v : value) : result (list value) :=
  match v with
  | VList l => Ok l
  | VDict d => Ok (map (fun kv => VStr (fst kv)) d)
  | VStr s => Ok (map (fun c => VStr (String c EmptyString)) (chars s))
  | _ => Raise TypeError
  end.

(** ** Configuration *)

Definition BASE_URL : string := "https://www.thebluealliance.com/api/v3".

(** Keys to ignore in the match-level common data. *)
Definition IGNORE_TOP_KEYS : list string :=
  ["actual_time"; "comp_level"; "match_number"; "key"; "post_result_time";
   "predicted_time"; "set_number"; "time"; "videos"].

(** Reef sub-keys to ignore in autoReef and teleopReef. *)
Definition IGNORE_REEF_KEYS : list string := ["botRow"; "midRow"; "topRow"].

(** ** The row flattener *)

(** [isinstance(v, dict)] *)
Definition is_dict (v : value) : bool :=
  match v with VDict _ => true | _ => false end.

(** [v is None] *)
Definition is_None (v : value) : bool :=
  match v with VNone => true | _ => false end.

(** The inner loop of [process_score_breakdown] over the items of a reef
    dict: lines 81-83. *)
Definition flatten_reef (key : string) (sub : dict) (flat : dict) : dict :=
  fold_left
    (fun flat skv =>
       if negb (str_in (fst skv) IGNORE_REEF_KEYS)
       then dict_set flat (key ++ "_" ++ fst skv) (snd skv)
       else flat)
    sub flat.

(** One turn of the outer loop of [process_score_breakdown]: lines 78-85. *)
Definition flatten_item (flat : dict) (kv : string * value) : dict :=
  let (key, val) := kv in
  if String.eqb key "totalPoints" then flat
  else
    match val with
    | VDict sub =>
        if str_in key ["autoReef"; "teleopReef"]
        then flatten_reef key sub flat
        else dict_set flat key val
    | _ => dict_set flat key val
    end.

Definition process_score_breakdown (sb : value) : result dict :=
  items <- py_items sb ;;
  Ok (fold_left flatten_item items []).

(** The three [try]/[except] blocks of [process_match], lines 124-135, for
    slot [i] (0, 1 or 2): the value stored under [bot1], [bot2] or [bot3]. *)
Definition bot (team_keys : value) (i : nat) : value :=
  try_except
    (n <- py_len team_keys ;;
     if i <? n
     then x <- py_index team_keys i ;;
          s <- py_replace x "frc" EmptyString ;;
          z <- py_int s ;;
          Ok (VInt z)
     else Ok VNone)
    (fun _ => VNone).

(** The common data of [process_match]: lines 102-110. *)
Definition common_fields (items : dict) : dict :=
  fold_left
    (fun common_data kv =>
       if negb (str_in (fst kv) IGNORE_TOP_KEYS)
          && negb (str_in (fst kv) ["alliances"; "score_breakdown"])
       then dict_set common_data (fst kv) (snd kv)
       else common_data)
    items [].

(** The body of the loop over the two alliance colours: lines 117-146. *)
Definition alliance_row (common_data : dict) (alliances score_breakdown : value)
    (alliance_color : string) : result dict :=
  let row := common_data in
  let row := dict_set row "alliance" (VStr alliance_color) in
  alliance_data <- py_get alliances alliance_color (VDict []) ;;
  team_keys <- py_get alliance_data "team_keys" (VList []) ;;
  let row := dict_set row "bot1" (bot team_keys 0) in
  let row := dict_set row "bot2" (bot team_keys 1) in
  let row := dict_set row "bot3" (bot team_keys 2) in
  score <- py_get alliance_data "score" VNone ;;
  let row := dict_set row "alliance_score" score in
  sb <- py_get score_breakdown alliance_color (VDict []) ;;
  if truthy sb
  then flat_sb <- process_score_breakdown sb ;;
       Ok (dict_update row flat_sb)
  else Ok row.

Definition process_match (match_ : value) : result (list dict) :=
  a <- py_get match_ "alliances" VNone ;;
  if is_None a then Ok []
  else
    s <- py_get match_ "score_breakdown" VNone ;;
    if is_None s then Ok []
    else
      items <- py_items match_ ;;
      let common_data := common_fields items in
      comp_level <- py_get match_ "comp_level" (VStr EmptyString) ;;
      match_number <- py_get match_ "match_number" (VStr EmptyString) ;;
      let common_data :=
        dict_set common_data "match"
          (VStr (py_str comp_level ++ " " ++ py_str match_number)) in
      alliances <- py_getitem match_ "alliances" ;;
      score_breakdown <- py_getitem match_ "score_breakdown" ;;
      red <- alliance_row common_data alliances score_breakdown "red" ;;
      blue <- alliance_row common_data alliances score_breakdown "blue" ;;
      Ok [red; blue].

(** The end-to-end scenario of the specification. *)
Definition scenario_red_breakdown : dict :=
  [("totalPoints", VInt 120);
   ("autoReef", VDict [("botRow", VInt 1); ("algae", VInt 2)]);
   ("foo", VInt 3)].

Definition scenario_score_breakdown : value :=
  VDict [("red", VDict scenario_red_breakdown);
         ("blue", VDict [("totalPoints", VInt 80); ("foo", VInt 4)])].

Definition scenario_dict : dict :=
  [("key", VStr "2025ex_qm5"); ("event_key", VStr "2025ex");
   ("comp_level", VStr "qm"); ("match_number", VInt 5);
   ("winning_alliance", VStr "red");
   ("alliances",
     VDict
       [("red", VDict [("score", VInt 120);
                       ("team_keys",
                         VList [VStr "frc254"; VStr "frc1678"; VStr "frc118"])]);
        ("blue", VDict [("score", VInt 80);
                        ("team_keys", VList [VStr "frc1"; VStr "frcX"])])]);
   ("score_breakdown", scenario_score_breakdown)].

Definition scenario_match : value := VDict scenario_dict.

Definition scenario_red_row : dict :=
  [("event_key", VStr "2025ex"); ("winning_alliance", VStr "red");
   ("match", VStr "qm 5"); ("alliance", VStr "red");
   ("bot1", VInt 254); ("bot2", VInt 1678); ("bot3", VInt 118);
   ("alliance_score", VInt 120); ("autoReef_algae", VInt 2);
   ("foo", VInt 3)].

Definition scenario_blue_row : dict :=
  [("event_key", VStr "2025ex"); ("winning_alliance", VStr "red");
   ("match", VStr "qm 5"); ("alliance", VStr "blue");
   ("bot1", VInt 1); ("bot2", VNone); ("bot3", VNone);
   ("alliance_score", VInt 80); ("foo", VInt 4)].

(** ** The event fetch adapter *)

(** What [requests.get] hands back, as far as the code looks at it:
    [response.status_code], the outcome of [response.json()] and
    [response.text]. *)
Record response : Type := {
  status_code : Z;
  json : result value;
  text : string
}.

(** The transport: the response to a GET of a URL. *)
Definition transport : Type := string -> response.

(** An entry of [error_list].  The code appends an f-string; an entry here
    holds the values that f-string interpolates, in the same order. *)
Inductive error_record : Type :=
| ParseError (event_key : string) (e : exn) (response_text : string)
| MatchError (i : nat) (event_key : string) (match_ : value) (e : exn)
    (url : string)
| FetchError (event_key : string) (status : Z) (response_text : string).

(** The loop of lines 166-179, from index [i] on, with [rows] and
    [error_list] as they stand when the loop reaches that index. *)
Fixpoint process_matches (event_key url : string) (i : nat)
    (matches : list value) (rows : list dict) (error_list : list error_record)
    : list dict * list error_record :=
  match matches with
  | [] => (rows, error_list)
  | match_ :: rest =>
      match process_match match_ with
      | Ok processed =>
          process_matches event_key url (S i) rest (rows ++ processed)%list
            error_list
      | Raise e =>
          process_matches event_key url (S i) rest rows
            (error_list ++ [MatchError i event_key match_ e url])%list
      end
  end.

(** The URL of line 153. *)
Definition matches_url (event_key : value) : string :=
  BASE_URL ++ "/event/" ++ py_str event_key ++ "/matches".

(** [fetch_event_matches(event_key, error_list)]: the value returned (or
    the exception that escapes) and [error_list] afterwards. *)
Definition fetch_event_matches (get : transport) (event_key : value)
    (error_list : list error_record)
    : result (list dict) * list error_record :=
  let url := matches_url event_key in
  let response := get url in
  if (status_code response =? 200)%Z
  then
    match json response with
    | Raise e =>
        (Ok [],
         (error_list ++ [ParseError (py_str event_key) e (text response)])%list)
    | Ok matches =>
        match py_iter matches with
        | Raise e => (Raise e, error_list)
        | Ok ms =>
            let (rows, error_list') :=
              process_matches (py_str event_key) url 0 ms [] error_list in
            (Ok rows, error_list')
        end
    end
  else
    (Ok [],
     (error_list
        ++ [FetchError (py_str event_key) (status_code response)
              (text response)])%list).

(** ** Data frames

    A frame is its column labels, in order, and its rows; a row maps labels
    to cells and a label it lacks reads as NaN.  Labels are pairwise
    distinct in every frame pandas builds from records or reads from a
    sheet.  Cells are compared structurally, which is how pandas compares
    the strings that event keys are; column dtypes are not modelled. *)

Record DataFrame : Type := {
  columns : list string;
  rows : list dict
}.

Definition NaN : value := VFloat "nan".

Definition cell (row : dict) (label : string) : value :=
  match dict_get row label with
  | Some v => v
  | None => NaN
  end.

(** The labels of [cols] followed by those of [more] that are new. *)
Definition union_columns (cols more : list string) : list string :=
  fold_left (fun acc c => if str_in c acc then acc else (acc ++ [c])%list)
    more cols.

(** [pd.DataFrame(all_rows)] for a list of dicts. *)
Definition DataFrame_of_rows (all_rows : list dict) : DataFrame :=
  {| columns := fold_left (fun cols r => union_columns cols (keys r)) all_rows [];
     rows := all_rows |}.

(** [df[label]] *)
Definition getitem_column (df : DataFrame) (label : string)
    : result (list value) :=
  if str_in label (columns df)
  then Ok (map (fun r => cell r label) (rows df))
  else Raise KeyError.

(** [series.unique()]: the distinct values, in order of first appearance. *)
Fixpoint unique_from (seen : list value) (l : list value) : list value :=
  match l with
  | [] => []
  | x :: l' =>
      if existsb (value_eqb x) seen then unique_from seen l'
      else x :: unique_from (x :: seen) l'
  end.

Definition unique (l : list value) : list value := unique_from [] l.

(** [series.isin(values)] *)
Definition isin (series values : list value) : list bool :=
  map (fun x => existsb (value_eqb x) values) series.

(** [df[mask]] for a boolean mask. *)
Fixpoint select (rs : list dict) (mask : list bool) : list dict :=
  match rs, mask with
  | r :: rs', b :: mask' => if b then r :: select rs' mask' else select rs' mask'
  | _, _ => []
  end.

Definition getitem_mask (df : DataFrame) (mask : list bool) : DataFrame :=
  {| columns := columns df; rows := select (rows df) mask |}.

(** [pd.concat([a, b], ignore_index=True)] *)
Definition concat (a b : DataFrame) : DataFrame :=
  {| columns := union_columns (columns a) (columns b);
     rows := (rows a ++ rows b)%list |}.

(** [cols.remove(col)]: drops the first occurrence. *)
Fixpoint list_remove (col : string) (cols : list string) : list string :=
  match cols with
  | [] => []
  | c :: cols' => if String.eqb col c then cols' else c :: list_remove col cols'
  end.

(** The loop of [reorder_columns], lines 199-202, as a step on the pair
    ([desired_order], [cols]). *)
Definition pin_column (st : list string * list string) (col : string)
    : list string * list string :=
  let (desired_order, cols) := st in
  if str_in col cols
  then ((desired_order ++ [col])%list, list_remove col cols)
  else (desired_order, cols).

Definition new_order (cols : list string) : list string :=
  let (desired_order, cols') :=
    fold_left pin_column ["event_key"; "match"; "winning_alliance"] ([], cols) in
  (desired_order ++ cols')%list.

(** [df[new_order]] for a frame whose labels are pairwise distinct, as they
    are in every frame this program reorders: [new_order] is then a
    rearrangement of the labels and the rows keep their cells.  (With a
    repeated label pandas would select every column of that label once per
    occurrence in [new_order]; a frame whose rows are dicts has no such
    columns.) *)
Definition reorder_columns (df : DataFrame) : DataFrame :=
  {| columns := new_order (columns df); rows := rows df |}.

(** ** Writing the sheet

    [df.to_excel(OUTPUT_FILENAME, index=False)], with openpyxl as the
    engine.  pandas refuses a frame that does not fit a sheet before it opens
    the file.  Otherwise it writes the header cells from left to right, then
    the body column by column; openpyxl raises [IllegalCharacterError] on
    the first cell whose text has a control character it does not allow, and
    pandas then still saves the cells written so far. *)

(** [ILLEGAL_CHARACTERS_RE]: the control characters other than tab, line
    feed and carriage return. *)
Definition illegal_character (c : ascii) : bool :=
  let n := code c in
  (n <=? 8) || (n =? 11) || (n =? 12) || ((14 <=? n) && (n <=? 31)).

(** The text of a cell that is written as a string: a string itself, and
    [str(v)] for a list or a dict.  Numbers and booleans are written as
    such and a missing value as an empty cell. *)
Definition cell_text (v : value) : option string :=
  match v with
  | VStr s => Some s
  | VList _ | VDict _ => Some (py_str v)
  | _ => None
  end.

(** The longest text of a cell: [check_string] cuts the rest off. *)
Definition max_cell_text : nat := Z.to_nat 32767.

(** [check_string] raises on [v]. *)
Definition refused (v : value) : bool :=
  match cell_text v with
  | Some s => existsb illegal_character (firstn max_cell_text (chars s))
  | None => false
  end.

(** The cells written before the first one that is refused; [None] when
    none is refused. *)
Fixpoint written_before {A : Type} (bad : A -> bool) (l : list A)
    : option (list A) :=
  match l with
  | [] => None
  | x :: l' =>
      if bad x then Some []
      else option_map (cons x) (written_before bad l')
  end.

(** The cells of [row] under the labels [labels]. *)
Definition keep_cells (labels : list string) (row : dict) : dict :=
  filter (fun kv => str_in (fst kv) labels) row.

(** The rows of the sheet when the columns [done] are written in full and
    the column [c] down to its first [i] cells. *)
Definition torn_rows (done : list string) (c : string) (i : nat)
    (rs : list dict) : list dict :=
  (map (keep_cells (done ++ [c])) (firstn i rs)
   ++ match done with
      | [] => []
      | _ => map (keep_cells done) (skipn i rs)
      end)%list.

(** The body, column by column after the columns [done]: the rows left in
    the sheet when a cell is refused, [None] when all cells are written. *)
Fixpoint body_written (done labels : list string) (rs : list dict)
    : option (list dict) :=
  match labels with
  | [] => None
  | c :: labels' =>
      match written_before refused (map (fun r => cell r c) rs) with
      | Some col => Some (torn_rows done c (List.length col) rs)
      | None => body_written (done ++ [c])%list labels' rs
      end
  end.

(** More than 2^20 rows or 2^14 columns. *)
Definition too_large (df : DataFrame) : bool :=
  (1048576 <? Z.of_nat (List.length (rows df)))%Z
  || (16384 <? Z.of_nat (List.length (columns df)))%Z.

(** The spreadsheet file is the state: [None] when [matches.xlsx] does not
    exist, else the frame of its sheet.  A state handed to [update_file] is
    the frame [pd.read_excel] reads; the state after a call is the frame
    [to_excel] wrote.  What [pd.read_excel] would make of a sheet written
    here (it infers the type of every column afresh) is not modelled, so
    nothing below follows a sheet from one run of the program into the
    next.  (The column widths set by [auto_adjust_excel_columns] are not
    part of the frame.) *)
Definition file_state : Type := option DataFrame.

Definition to_excel (df : DataFrame) (file : file_state)
    : result unit * file_state :=
  if too_large df then (Raise ValueError, file)
  else
    match written_before (fun c => refused (VStr c)) (columns df) with
    | Some labels =>
        (Raise IllegalCharacterError, Some {| columns := labels; rows := [] |})
    | None =>
        match body_written [] (columns df) (rows df) with
        | Some rs =>
            (Raise IllegalCharacterError,
             Some {| columns := columns df; rows := rs |})
        | None => (Ok tt, Some df)
        end
    end.

(** ** The dataset reconciler *)

(** Lines 238-246 of [update_file]: the frame handed to [to_excel].  The
    lookups of lines 242 and 243 raise [KeyError] when the column is
    missing. *)
Definition frame_to_write (new_data_df : DataFrame) (mode : string)
    (file : file_state) : result DataFrame :=
  df <- match (if String.eqb mode "replace" then None else file) with
        | None => Ok new_data_df
        | Some existing_df =>
            new_keys <- getitem_column new_data_df "event_key" ;;
            let keys_to_replace := unique new_keys in
            old_keys <- getitem_column existing_df "event_key" ;;
            let updated_df :=
              getitem_mask existing_df
                (map negb (isin old_keys keys_to_replace)) in
            Ok (concat updated_df new_data_df)
        end ;;
  Ok (reorder_columns df).

(** [update_file(new_data_df, mode)]: whether it returns or raises, and
    the file afterwards.  An exception of lines 238-246 leaves the file as
    it was. *)
Definition update_file (new_data_df : DataFrame) (mode : string)
    (file : file_state) : result unit * file_state :=
  match frame_to_write new_data_df mode file with
  | Ok df => to_excel df file
  | Raise e => (Raise e, file)
  end.

(** ** The batch drivers

    The message boxes a driver opens are returned as a list; the list boxes
    and the progress bar are left out. *)

Inductive notice : Type :=
| ShowInfo (title message : string)
| ShowError (title message : string)
| ShowWarning (title : string) (errors : list error_record)
| ShowWarningText (title message : string).

(** The body shared by the loops of both drivers, lines 274-277 and
    308-311: [all_rows] and [error_list] after one more event. *)
Definition fetch_event (get : transport) (event : value)
    (all_rows : list dict) (error_list : list error_record)
    : result (list dict) * list error_record :=
  match py_getitem event "key" with
  | Raise e => (Raise e, error_list)
  | Ok event_key =>
      match fetch_event_matches get event_key error_list with
      | (Raise e, error_list') => (Raise e, error_list')
      | (Ok rows, error_list') => (Ok (all_rows ++ rows)%list, error_list')
      end
  end.

(** [for event in available_events], lines 273-277. *)
Fixpoint fetch_events (get : transport) (events : list value)
    (all_rows : list dict) (error_list : list error_record)
    : result (list dict) * list error_record :=
  match events with
  | [] => (Ok all_rows, error_list)
  | event :: rest =>
      match fetch_event get event all_rows error_list with
      | (Raise e, error_list') => (Raise e, error_list')
      | (Ok all_rows', error_list') =>
          fetch_events get rest all_rows' error_list'
      end
  end.

(** [for idx in selected_indices], lines 306-311. *)
Fixpoint fetch_selected (get : transport) (available_events : list value)
    (selected_indices : list nat)
    (all_rows : list dict) (error_list : list error_record)
    : result (list dict) * list error_record :=
  match selected_indices with
  | [] => (Ok all_rows, error_list)
  | idx :: rest =>
      match nth_error available_events idx with
      | None => (Raise IndexError, error_list)
      | Some event =>
          match fetch_event get event all_rows error_list with
          | (Raise e, error_list') => (Raise e, error_list')
          | (Ok all_rows', error_list') =>
              fetch_selected get available_events rest all_rows' error_list'
          end
      end
  end.

(** Lines 279-290 and 313-324: write the rows if there are any, then show
    the collected errors. *)
Definition write_and_report (all_rows : list dict)
    (error_list : list error_record) (mode success failure : string)
    (file : file_state) : result (list notice) * file_state :=
  let errors :=
    match error_list with
    | [] => []
    | _ => [ShowWarning "Some Events Had Errors" error_list]
    end in
  match all_rows with
  | [] => (Ok (ShowError "Error" failure :: errors), file)
  | _ =>
      match update_file (DataFrame_of_rows all_rows) mode file with
      | (Ok _, file') => (Ok (ShowInfo "Success" success :: errors), file')
      | (Raise e, file') => (Raise e, file')
      end
  end.

Definition load_all_events (get : transport) (available_events : list value)
    (file : file_state) : result (list notice) * file_state :=
  match fetch_events get available_events [] [] with
  | (Raise e, _) => (Raise e, file)
  | (Ok all_rows, error_list) =>
      write_and_report all_rows error_list "replace"
        "File replaced with all TBA events data." "No data fetched." file
  end.

Definition add_replace_selected (get : transport)
    (available_events : list value) (selected_indices : list nat)
    (file : file_state) : result (list notice) * file_state :=
  match selected_indices with
  | [] => (Ok [ShowWarningText "No Selection" "No events selected."], file)
  | _ =>
      match fetch_selected get available_events selected_indices [] [] with
      | (Raise e, _) => (Raise e, file)
      | (Ok all_rows, error_list) =>
          write_and_report all_rows error_list "update"
            "Selected events updated in file."
            "No data fetched for selected events." file
      end
  end.

(** ** The shape of a match and the rows it yields *)

(** [d.get(k) is not None] *)
Definition present (d : dict) (k : string) : bool :=
  match dict_get d k with
  | Some v => negb (is_None v)
  | None => false
  end.

(** A complete match: the guard of line 98 lets it through. *)
Definition complete (d : dict) : bool :=
  present d "alliances" && present d "score_breakdown".

(** [v] is a dict whose entry for [color], when it has one, satisfies [ok]. *)
Definition entry_ok (ok : value -> bool) (v : value) (color : string) : bool :=
  match v with
  | VDict d =>
      match dict_get d color with
      | Some x => ok x
      | None => true
      end
  | _ => false
  end.

Definition dict_or_falsy (v : value) : bool := is_dict v || negb (truthy v).

(** A match whose [alliances] and [score_breakdown] are dicts, whose
    alliance entries are dicts and whose score-breakdown entries are dicts
    or falsy, for both colours. *)
Definition well_shaped (d : dict) : bool :=
  match dict_get d "alliances", dict_get d "score_breakdown" with
  | Some a, Some s =>
      entry_ok is_dict a "red" && entry_ok dict_or_falsy s "red"
      && entry_ok is_dict a "blue" && entry_ok dict_or_falsy s "blue"
  | _, _ => false
  end.

(** The flattened score breakdown that line 144 merges into the row of
    [color]; empty when lines 142-144 are skipped. *)
Definition flat_sb_of (score_breakdown : value) (color : string) : dict :=
  match py_get score_breakdown color (VDict []) with
  | Ok sb =>
      if truthy sb
      then match process_score_breakdown sb with Ok flat => flat | Raise _ => [] end
      else []
  | Raise _ => []
  end.

(** The row of [color] as it stands at line 140, before the score breakdown
    is merged. *)
Definition base_row (common_data : dict) (alliances : value) (color : string)
    : dict :=
  let alliance_data :=
    match py_get alliances color (VDict []) with Ok x => x | Raise _ => VNone end in
  let team_keys :=
    match py_get alliance_data "team_keys" (VList []) with
    | Ok x => x | Raise _ => VNone end in
  let score :=
    match py_get alliance_data "score" VNone with
    | Ok x => x | Raise _ => VNone end in
  dict_set
    (dict_set
       (dict_set
          (dict_set (dict_set common_data "alliance" (VStr color))
             "bot1" (bot team_keys 0))
          "bot2" (bot team_keys 1))
       "bot3" (bot team_keys 2))
    "alliance_score" score.

(** The common data of a match dict, with the derived [match] field. *)
Definition common_data_of (d : dict) : dict :=
  let get k :=
    match dict_get d k with Some x => x | None => VStr EmptyString end in
  dict_set (common_fields d) "match"
    (VStr (py_str (get "comp_level") ++ " " ++ py_str (get "match_number"))).

Definition row_of (d : dict) (color : string) : dict :=
  let field k := match dict_get d k with Some x => x | None => VNone end in
  dict_update (base_row (common_data_of d) (field "alliances") color)
    (flat_sb_of (field "score_breakdown") color).

(** The top-level keys that line 104 copies. *)
Definition kept (k : string) : bool :=
  negb (str_in k IGNORE_TOP_KEYS)
  && negb (str_in k ["alliances"; "score_breakdown"]).

(** ** Statements about the flattener *)

(** [d.get(k)] is [None]: the key is absent or maps to [None]. *)
Definition lacks (d : dict) (k : string) : Prop :=
  dict_get d k = None \/ dict_get d k = Some VNone.

Definition alliance_is (color : string) (row : dict) : Prop :=
  dict_get row "alliance" = Some (VStr color).

(** [process_match] returns exactly two rows, one with [alliance] red and
    one with [alliance] blue. *)
Definition one_row_per_alliance (m : value) : Prop :=
  exists r1 r2,
    process_match m = Ok [r1; r2]
    /\ ((alliance_is "red" r1 /\ alliance_is "blue" r2)
        \/ (alliance_is "blue" r1 /\ alliance_is "red" r2)).

(** [process_match] returns normally. *)
Definition returns_rows (m : value) : Prop :=
  exists rows, process_match m = Ok rows.

(** No row of [m] has a column [totalPoints]. *)
Definition no_totalPoints (m : value) : Prop :=
  forall rows row,
    process_match m = Ok rows -> In row rows ->
    dict_mem row "totalPoints" = false.


(** A played match whose red score breakdown has a field named
    [alliance]. *)
Definition match_with_alliance_field : dict :=
  [("event_key", VStr "2025ex"); ("comp_level", VStr "qm");
   ("match_number", VInt 1);
   ("alliances",
     VDict [("red", VDict [("score", VInt 10);
                           ("team_keys", VList [VStr "frc1"])]);
            ("blue", VDict [("score", VInt 20);
                            ("team_keys", VList [VStr "frc2"])])]);
   ("score_breakdown",
     VDict [("red", VDict [("alliance", VStr "green"); ("foulPoints", VInt 0)]);
            ("blue", VDict [("foulPoints", VInt 5)])])].


(** A match with a top-level key [totalPoints]. *)
Definition match_with_top_totalPoints : dict :=
  [("event_key", VStr "2025ex"); ("comp_level", VStr "qm");
   ("match_number", VInt 1); ("totalPoints", VInt 7);
   ("alliances", VDict []); ("score_breakdown", VDict [])].

(** ** Statements about the fetch adapter *)

(** The rows a match contributes: those [process_match] returns. *)
Definition rows_of_match (m : value) : list dict :=
  match process_match m with
  | Ok processed => processed
  | Raise _ => []
  end.

Definition rows_of_matches (ms : list value) : list dict :=
  flat_map rows_of_match ms.

(** The error records of the matches of [ms] on which [process_match]
    raises, [ms] starting at index [i] of the list fetched. *)
Fixpoint errors_from (event_key url : string) (i : nat) (ms : list value)
    : list error_record :=
  match ms with
  | [] => []
  | m :: rest =>
      match process_match m with
      | Ok _ => errors_from event_key url (S i) rest
      | Raise e =>
          MatchError i event_key m e url
          :: errors_from event_key url (S i) rest
      end
  end.

(** A transport that answers every request with status 200 and the given
    JSON body. *)
Definition serve (body : value) : transport :=
  fun _ => {| status_code := 200; json := Ok body; text := EmptyString |}.

(** ** Statements about datasets *)

(** [load_existing_data()]: the frame in the file, or an empty frame. *)
Definition load_existing_data (file : file_state) : DataFrame :=
  match file with
  | Some df => df
  | None => {| columns := []; rows := [] |}
  end.

(** The event identifiers of the rows of a frame. *)
Definition event_keys (df : DataFrame) : list value :=
  map (fun r => cell r "event_key") (rows df).

(** The event identifier of [row] occurs in [incoming]. *)
Definition mentioned (incoming : DataFrame) (row : dict) : bool :=
  existsb (value_eqb (cell row "event_key")) (event_keys incoming).

Definition triple (row : dict) : value * value * value :=
  (cell row "event_key", cell row "match", cell row "alliance").

(** At most one row per (event, match, alliance) triple. *)
Definition unique_triples (df : DataFrame) : Prop :=
  NoDup (map triple (rows df)).

Definition pinned : list string := ["event_key"; "match"; "winning_alliance"].

Definition other_column (c : string) : bool := negb (str_in c pinned).

(** A semifinal of a double-elimination bracket: every semifinal has match
    number 1 and its own set number. *)
Definition semifinal (set_number : Z) : value :=
  VDict
    [("event_key", VStr "2025ex"); ("comp_level", VStr "sf");
     ("set_number", VInt set_number); ("match_number", VInt 1);
     ("alliances",
       VDict [("red", VDict [("score", VInt 10);
                             ("team_keys", VList [VStr "frc1"])]);
              ("blue", VDict [("score", VInt 20);
                              ("team_keys", VList [VStr "frc2"])])]);
     ("score_breakdown",
       VDict [("red", VDict [("foulPoints", VInt 0)]);
              ("blue", VDict [("foulPoints", VInt 5)])])].

Definition two_semifinals : transport :=
  serve (VList [semifinal 1; semifinal 2]).

Definition one_event : list value :=
  [VDict [("key", VStr "2025ex"); ("name", VStr "Example Regional")]].

(** A stored row of the dataset. *)
Definition stored_row (event match_id alliance : string) (score : Z) : dict :=
  [("event_key", VStr event); ("match", VStr match_id);
   ("alliance", VStr alliance); ("alliance_score", VInt score)].

Definition stored_columns : list string :=
  ["event_key"; "match"; "alliance"; "alliance_score"].

(** A dataset with rows of the events A and B, and a batch for A only. *)
Definition existing_AB : DataFrame :=
  {| columns := stored_columns;
     rows := [stored_row "A" "qm 1" "red" 1; stored_row "B" "qm 1" "red" 2;
              stored_row "A" "qm 1" "blue" 3] |}.

Definition incoming_A : DataFrame :=
  {| columns := stored_columns; rows := [stored_row "A" "qm 1" "red" 7] |}.

(** The dataset after the batch for A is upserted. *)
Definition merged_AB : DataFrame :=
  {| columns := stored_columns;
     rows := [stored_row "B" "qm 1" "red" 2; stored_row "A" "qm 1" "red" 7] |}.

(** A batch of one row that has no event identifier. *)
Definition incoming_unkeyed : DataFrame :=
  {| columns := ["match"; "alliance"; "alliance_score"];
     rows := [[("match", VStr "qm 1"); ("alliance", VStr "red");
               ("alliance_score", VInt 7)]] |}.

(** The rows of the file that [update_file] keeps: none in Replace mode,
    else those whose event identifier the incoming batch does not have. *)
Definition kept_rows (new_data_df : DataFrame) (mode : string)
    (file : file_state) : list dict :=
  if String.eqb mode "replace" then []
  else filter (fun r => negb (mentioned new_data_df r))
         (rows (load_existing_data file)).

(** ** Further statements about the flattener *)

(** [key in ['autoReef', 'teleopReef']] *)
Definition is_reef (key : string) : bool :=
  str_in key ["autoReef"; "teleopReef"].

(** [k] is a key of [sb] that line 85 copies. *)
Definition copied_key (sb : dict) (k : string) : Prop :=
  k <> "totalPoints"
  /\ exists v, In (k, v) sb /\ is_reef k && is_dict v = false.

(** [k] is the name line 83 gives to a sub-key of a reef dict of [sb]. *)
Definition lifted_key (sb : dict) (k : string) : Prop :=
  exists parent sub child v,
    In (parent, VDict sub) sb /\ is_reef parent = true
    /\ In (child, v) sub /\ str_in child IGNORE_REEF_KEYS = false
    /\ k = parent ++ "_" ++ child.

(** [sb] has a reef key whose value is a dict. *)
Definition has_reef_dict (sb : dict) : bool :=
  existsb (fun kv => is_reef (fst kv) && is_dict (snd kv)) sb.

Definition not_totalPoints (kv : string * value) : bool :=
  negb (String.eqb (fst kv) "totalPoints").

(** ** Further statements about rows *)

(** The row of [color] among the rows [process_match] returns: red is
    appended first, blue second. *)
Definition row_for (rows : list dict) (color : string) : option dict :=
  if String.eqb color "red" then nth_error rows 0
  else if String.eqb color "blue" then nth_error rows 1
  else None.

(** The columns lines 110-138 set in every row. *)
Definition derived_columns : list string :=
  ["match"; "alliance"; "bot1"; "bot2"; "bot3"; "alliance_score"].

(** [d.get(k, default)] on a dict. *)
Definition field_or (d : dict) (k : string) (default : value) : value :=
  match dict_get d k with
  | Some x => x
  | None => default
  end.

(** [alliances.get(color, {})] and its [team_keys] and [score], for a match
    whose [alliances] and alliance entries are dicts. *)
Definition alliance_data_of (d : dict) (color : string) : dict :=
  match dict_get d "alliances" with
  | Some (VDict a) =>
      match field_or a color (VDict []) with
      | VDict alliance_data => alliance_data
      | _ => []
      end
  | _ => []
  end.

Definition team_keys_of (d : dict) (color : string) : value :=
  field_or (alliance_data_of d color) "team_keys" (VList []).

(** The value lines 110-138 store under a derived column. *)
Definition derived_value (d : dict) (color k : string) : option value :=
  if String.eqb k "match"
  then Some (VStr (py_str (field_or d "comp_level" (VStr EmptyString))
                   ++ " "
                   ++ py_str (field_or d "match_number" (VStr EmptyString))))
  else if String.eqb k "alliance" then Some (VStr color)
  else if String.eqb k "bot1" then Some (bot (team_keys_of d color) 0)
  else if String.eqb k "bot2" then Some (bot (team_keys_of d color) 1)
  else if String.eqb k "bot3" then Some (bot (team_keys_of d color) 2)
  else if String.eqb k "alliance_score"
       then Some (field_or (alliance_data_of d color) "score" VNone)
       else None.

(** ** Further statements about the fetch adapter *)

(** [process_match] raises on [m]. *)
Definition raises (m : value) : bool :=
  match process_match m with
  | Raise _ => true
  | Ok _ => false
  end.

(** [process_match] returns rows for [m], and not the empty list. *)
Definition yields_rows (m : value) : bool :=
  match process_match m with
  | Ok (_ :: _) => true
  | _ => false
  end.


(** ** Further statements about datasets *)

(** The labels of a frame are distinct and every key of every row is one
    of them. *)
Definition frame_ok (df : DataFrame) : Prop :=
  NoDup (columns df)
  /\ forall r k, In r (rows df) -> In k (keys r) -> In k (columns df).

(** The rows of a frame whose event identifier is [e]. *)
Definition rows_of_event (e : value) (df : DataFrame) : list dict :=
  filter (fun r => value_eqb (cell r "event_key") e) (rows df).

(** ** Further statements about the drivers *)

(** What one event adds to empty accumulators: whether the loop body
    returns, the rows and the error records. *)
Definition event_ok (get : transport) (event : value) : bool :=
  match fst (fetch_event get event [] []) with
  | Ok _ => true
  | Raise _ => false
  end.

Definition event_rows (get : transport) (event : value) : list dict :=
  match fst (fetch_event get event [] []) with
  | Ok rows => rows
  | Raise _ => []
  end.

Definition event_errors (get : transport) (event : value)
    : list error_record :=
  snd (fetch_event get event [] []).

(** A row that [process_match] returned for some match. *)
Definition flattened_row (row : dict) : Prop :=
  exists m rows, process_match m = Ok rows /\ In row rows.

(** ** Column widths

    A worksheet as [auto_adjust_excel_columns] goes through it: its columns,
    each the values of its cells from the top (the header cell first).  The
    result is the width set for each column, in the order of the columns. *)

Definition worksheet : Type := list (list value).

(** The inner loop, lines 214-219: [max_length] after the cells of [col],
    starting from [max_length]. *)
Definition longest_from (max_length : nat) (col : list value) : nat :=
  fold_left
    (fun max_length cell_value =>
       if truthy cell_value
       then Nat.max max_length (String.length (py_str cell_value))
       else max_length)
    col max_length.

(** The width line 220 sets for a column. *)
Definition column_width (col : list value) : nat := longest_from 0 col + 2.

Definition auto_adjust_excel_columns (ws : worksheet) : list nat :=
  map column_width ws.

(** * Properties *)

(** ** Worked examples *)

Example bot_frc1234 : bot (VList [VStr "frc1234"]) 0 = VInt 1234.
Proof. reflexivity. Qed.
Example bot_missing_second : bot (VList [VStr "frc1234"]) 1 = VNone.
Proof. reflexivity. Qed.
Example bot_malformed : bot (VList [VStr "frcX"; VInt 7]) 0 = VNone.
Proof. reflexivity. Qed.
Example bot_not_a_string : bot (VList [VStr "frcX"; VInt 7]) 1 = VNone.
Proof. reflexivity. Qed.
Example py_int_frc : py_int (str_replace "frc254" "frc" EmptyString) = Ok 254%Z.
Proof. reflexivity. Qed.
Example py_int_grouped : py_int " -1_000 " = Ok (-1000)%Z.
Proof. reflexivity. Qed.
Example py_int_bad : py_int "12a" = Raise ValueError.
Proof. reflexivity. Qed.
Example py_int_no_break_space :
  py_int (String (ascii_of_nat 160) "12") = Ok 12%Z.
Proof. reflexivity. Qed.
Example py_int_unit_separator :
  py_int (String (ascii_of_nat 31) "12") = Raise ValueError.
Proof. reflexivity. Qed.
Example bot_unit_separator :
  bot (VList [VStr ("frc" ++ String (ascii_of_nat 31) "12")]) 0 = VNone.
Proof. reflexivity. Qed.
Example py_repr_nested :
  py_repr (VDict [("a", VList [VInt 1; VStr "it's"; VNone])])
  = "{'a': [1, " ++ String dquote ("it's" ++ String dquote ", None]}").
Proof. reflexivity. Qed.

Example scenario_rows :
  process_match scenario_match = Ok [scenario_red_row; scenario_blue_row].
Proof. reflexivity. Qed.

(** ** Dicts *)

Lemma dict_get_set_same (d : dict) (k : string) (v : value) :
  dict_get (dict_set d k v) k = Some v.
Proof.
  induction d as [|[k' v'] d IH]; simpl.
  - now rewrite String.eqb_refl.
  - destruct (String.eqb k k') eqn:E; simpl.
    + now rewrite String.eqb_refl.
    + now rewrite E.
Qed.

Lemma dict_get_set_other (d : dict) (k k' : string) (v : value) :
  k <> k' -> dict_get (dict_set d k v) k' = dict_get d k'.
Proof.
  intros Hne. induction d as [|[k0 v0] d IH]; simpl.
  - destruct (String.eqb_spec k' k); congruence.
  - destruct (String.eqb_spec k k0) as [->|Hk]; simpl.
    + destruct (String.eqb_spec k' k0); congruence.
    + now rewrite IH.
Qed.

Lemma dict_get_set (d : dict) (k k' : string) (v : value) :
  dict_get (dict_set d k v) k'
  = if String.eqb k k' then Some v else dict_get d k'.
Proof.
  destruct (String.eqb_spec k k') as [->|Hne].
  - apply dict_get_set_same.
  - now apply dict_get_set_other.
Qed.

Lemma dict_mem_set (d : dict) (k k' : string) (v : value) :
  dict_mem (dict_set d k v) k' = String.eqb k k' || dict_mem d k'.
Proof.
  unfold dict_mem. rewrite dict_get_set. now destruct (String.eqb k k').
Qed.

Lemma dict_get_In (d : dict) (k : string) (v : value) :
  dict_get d k = Some v -> In (k, v) d.
Proof.
  induction d as [|[k' v'] d IH]; simpl; [discriminate|].
  destruct (String.eqb_spec k k') as [->|Hne].
  - intros [= ->]. now left.
  - intros H. right. now apply IH.
Qed.

Lemma dict_mem_keys (d : dict) (k : string) :
  dict_mem d k = true <-> In k (keys d).
Proof.
  unfold dict_mem. induction d as [|[k' v'] d IH]; simpl.
  - split; [discriminate | tauto].
  - destruct (String.eqb_spec k k') as [->|Hne].
    + split; auto.
    + rewrite IH. split; [tauto | intros [H|H]; congruence].
Qed.

Lemma keys_set (d : dict) (k : string) (v : value) :
  keys (dict_set d k v) = if dict_mem d k then keys d else (keys d ++ [k])%list.
Proof.
  unfold dict_mem. induction d as [|[k' v'] d IH]; simpl; [reflexivity|].
  destruct (String.eqb_spec k k') as [->|Hne]; simpl; [reflexivity|].
  rewrite IH. now destruct (dict_get d k).
Qed.

(** A dict built by assignments has pairwise distinct keys. *)
Lemma NoDup_keys_set (d : dict) (k : string) (v : value) :
  NoDup (keys d) -> NoDup (keys (dict_set d k v)).
Proof.
  intros Hd. rewrite keys_set. destruct (dict_mem d k) eqn:E; [assumption|].
  apply NoDup_app; [assumption | repeat constructor; simpl; tauto |].
  intros x Hx [<-|[]]. apply dict_mem_keys in Hx. congruence.
Qed.

Lemma dict_get_update (d e : dict) (k : string) :
  NoDup (keys e) ->
  dict_get (dict_update d e) k
  = match dict_get e k with Some v => Some v | None => dict_get d k end.
Proof.
  unfold dict_update. revert d.
  induction e as [|[k1 v1] e IH]; intros d Hnd; simpl; [reflexivity|].
  inversion Hnd as [|? ? Hnotin Hnd']; subst.
  rewrite IH by assumption. rewrite dict_get_set.
  destruct (String.eqb_spec k k1) as [->|Hne].
  - rewrite String.eqb_refl.
    destruct (dict_get e k1) eqn:E; [|reflexivity].
    exfalso. apply Hnotin. apply dict_mem_keys. unfold dict_mem. now rewrite E.
  - destruct (String.eqb_spec k1 k); [congruence|]. reflexivity.
Qed.

Lemma dict_mem_update (d e : dict) (k : string) :
  dict_mem (dict_update d e) k = dict_mem d k || dict_mem e k.
Proof.
  unfold dict_update. revert d.
  induction e as [|[k1 v1] e IH]; intros d; simpl.
  - unfold dict_mem at 3; simpl. now rewrite orb_false_r.
  - rewrite IH, dict_mem_set. unfold dict_mem at 4; simpl.
    rewrite (String.eqb_sym k k1).
    destruct (String.eqb k1 k); simpl.
    + now rewrite orb_true_r.
    + reflexivity.
Qed.

(** ** The score-breakdown flattener *)

Lemma NoDup_keys_flatten_reef (key : string) (sub flat : dict) :
  NoDup (keys flat) -> NoDup (keys (flatten_reef key sub flat)).
Proof.
  unfold flatten_reef. revert flat.
  induction sub as [|[k v] sub IH]; intros flat H;
    cbn [fold_left fst snd]; [assumption|].
  apply IH. destruct (negb (str_in k IGNORE_REEF_KEYS)); [|assumption].
  now apply NoDup_keys_set.
Qed.

Lemma NoDup_keys_flatten_item (flat : dict) (kv : string * value) :
  NoDup (keys flat) -> NoDup (keys (flatten_item flat kv)).
Proof.
  intros H. destruct kv as [key val]. unfold flatten_item.
  destruct (String.eqb key "totalPoints"); [assumption|].
  destruct val; try now apply NoDup_keys_set.
  destruct (str_in key ["autoReef"; "teleopReef"]).
  - now apply NoDup_keys_flatten_reef.
  - now apply NoDup_keys_set.
Qed.

Lemma NoDup_keys_flatten (items flat : dict) :
  NoDup (keys flat) -> NoDup (keys (fold_left flatten_item items flat)).
Proof.
  revert flat. induction items as [|kv items IH]; intros flat H; simpl.
  - assumption.
  - apply IH. now apply NoDup_keys_flatten_item.
Qed.

Lemma process_score_breakdown_NoDup (sb : value) (flat : dict) :
  process_score_breakdown sb = Ok flat -> NoDup (keys flat).
Proof.
  unfold process_score_breakdown. destruct sb; simpl; try discriminate.
  intros [= <-]. apply NoDup_keys_flatten. constructor.
Qed.

(** A lifted reef key starts with [autoReef_] or [teleopReef_], so it is
    never [totalPoints]. *)
Lemma reef_key_not_totalPoints (key sub_key : string) :
  str_in key ["autoReef"; "teleopReef"] = true ->
  String.eqb (key ++ "_" ++ sub_key) "totalPoints" = false.
Proof.
  unfold str_in; simpl. rewrite orb_false_r.
  intros H. apply orb_true_iff in H.
  destruct H as [H|H]; apply String.eqb_eq in H; subst; reflexivity.
Qed.

Lemma flatten_reef_no_totalPoints (key : string) (sub flat : dict) :
  str_in key ["autoReef"; "teleopReef"] = true ->
  dict_mem flat "totalPoints" = false ->
  dict_mem (flatten_reef key sub flat) "totalPoints" = false.
Proof.
  intros Hk. unfold flatten_reef. revert flat.
  induction sub as [|[k v] sub IH]; intros flat H;
    cbn [fold_left fst snd]; [assumption|].
  apply IH. destruct (negb (str_in k IGNORE_REEF_KEYS)); [|assumption].
  rewrite dict_mem_set, H, orb_false_r.
  now apply reef_key_not_totalPoints.
Qed.

Lemma flatten_item_no_totalPoints (flat : dict) (kv : string * value) :
  dict_mem flat "totalPoints" = false ->
  dict_mem (flatten_item flat kv) "totalPoints" = false.
Proof.
  intros H. destruct kv as [key val]. unfold flatten_item.
  destruct (String.eqb key "totalPoints") eqn:E; [assumption|].
  assert (Hset : dict_mem (dict_set flat key val) "totalPoints" = false)
    by now rewrite dict_mem_set, E, H.
  destruct val; try exact Hset.
  destruct (str_in key ["autoReef"; "teleopReef"]) eqn:Ek; [|exact Hset].
  now apply flatten_reef_no_totalPoints.
Qed.

Lemma flatten_no_totalPoints (items flat : dict) :
  dict_mem flat "totalPoints" = false ->
  dict_mem (fold_left flatten_item items flat) "totalPoints" = false.
Proof.
  revert flat. induction items as [|kv items IH]; intros flat H; simpl.
  - assumption.
  - apply IH. now apply flatten_item_no_totalPoints.
Qed.

(** [process_score_breakdown] skips [totalPoints]. *)
Lemma process_score_breakdown_no_totalPoints (sb : value) (flat : dict) :
  process_score_breakdown sb = Ok flat -> dict_mem flat "totalPoints" = false.
Proof.
  unfold process_score_breakdown. destruct sb; simpl; try discriminate.
  intros [= <-]. now apply flatten_no_totalPoints.
Qed.

(** ** What [process_match] returns *)

Lemma alliance_row_ok (common_data : dict) (a s : value) (color : string) :
  entry_ok is_dict a color = true ->
  entry_ok dict_or_falsy s color = true ->
  alliance_row common_data a s color
  = Ok (dict_update (base_row common_data a color) (flat_sb_of s color)).
Proof.
  unfold alliance_row, base_row, flat_sb_of, entry_ok.
  destruct a as [| | | | | |da]; try discriminate.
  destruct s as [| | | | | |ds]; try discriminate.
  cbn [py_get bind].
  intros Ha Hs.
  destruct (dict_get da color) as [x|].
  - destruct x; try discriminate. cbn [py_get bind].
    destruct (dict_get ds color) as [y|]; [|reflexivity].
    destruct (truthy y) eqn:Ty; [|reflexivity].
    unfold dict_or_falsy in Hs. rewrite Ty in Hs.
    destruct y; try discriminate. reflexivity.
  - cbn [py_get bind dict_get].
    destruct (dict_get ds color) as [y|]; [|reflexivity].
    destruct (truthy y) eqn:Ty; [|reflexivity].
    unfold dict_or_falsy in Hs. rewrite Ty in Hs.
    destruct y; try discriminate. reflexivity.
Qed.

Lemma alliance_row_bad (common_data : dict) (a s : value) (color : string) :
  entry_ok is_dict a color && entry_ok dict_or_falsy s color = false ->
  alliance_row common_data a s color = Raise AttributeError.
Proof.
  unfold alliance_row, entry_ok.
  destruct a as [| | | | | |da]; try reflexivity.
  cbn [py_get bind].
  destruct (dict_get da color) as [x|].
  - destruct x; try reflexivity. cbn [py_get bind is_dict andb].
    destruct s as [| | | | | |ds]; try reflexivity. cbn [py_get bind].
    destruct (dict_get ds color) as [y|]; [|discriminate].
    unfold dict_or_falsy.
    destruct (truthy y) eqn:Ty; [|now rewrite orb_true_r].
    destruct y; try discriminate; reflexivity.
  - cbn [py_get bind dict_get andb].
    destruct s as [| | | | | |ds]; try reflexivity. cbn [py_get bind].
    destruct (dict_get ds color) as [y|]; [|discriminate].
    unfold dict_or_falsy.
    destruct (truthy y) eqn:Ty; [|now rewrite orb_true_r].
    destruct y; try discriminate; reflexivity.
Qed.

Lemma process_match_not_dict (m : value) :
  is_dict m = false -> process_match m = Raise AttributeError.
Proof. destruct m; try reflexivity. discriminate. Qed.

(** Past the guard of line 98, with the loop over the colours still to run. *)
Lemma process_match_complete (d : dict) (a s : value) :
  dict_get d "alliances" = Some a -> is_None a = false ->
  dict_get d "score_breakdown" = Some s -> is_None s = false ->
  process_match (VDict d)
  = (red <- alliance_row (common_data_of d) a s "red" ;;
     blue <- alliance_row (common_data_of d) a s "blue" ;;
     Ok [red; blue]).
Proof.
  intros Ha Na Hs Ns. unfold process_match, common_data_of.
  cbn [py_get py_getitem py_items bind].
  rewrite Ha, Hs, Na, Ns. reflexivity.
Qed.

Lemma process_match_incomplete (d : dict) :
  complete d = false -> process_match (VDict d) = Ok [].
Proof.
  unfold complete, present, process_match. cbn [py_get bind].
  destruct (dict_get d "alliances") as [a|]; [|reflexivity].
  destruct (is_None a); [reflexivity|].
  destruct (dict_get d "score_breakdown") as [s|]; [|reflexivity].
  destruct (is_None s); [reflexivity|]. discriminate.
Qed.

Lemma well_shaped_complete (d : dict) :
  well_shaped d = true -> complete d = true.
Proof.
  unfold well_shaped, complete, present.
  destruct (dict_get d "alliances") as [a|]; [|discriminate].
  destruct (dict_get d "score_breakdown") as [s|]; [|discriminate].
  destruct a; try discriminate.
  destruct s; try reflexivity; cbn [entry_ok];
    rewrite ?andb_false_r; discriminate.
Qed.

Lemma process_match_well_shaped (d : dict) :
  well_shaped d = true ->
  process_match (VDict d) = Ok [row_of d "red"; row_of d "blue"].
Proof.
  intros W. pose proof (well_shaped_complete d W) as C.
  unfold well_shaped in W. unfold complete, present in C. unfold row_of.
  destruct (dict_get d "alliances") as [a|] eqn:Ha; [|discriminate].
  destruct (dict_get d "score_breakdown") as [s|] eqn:Hs; [|discriminate].
  apply andb_true_iff in C. destruct C as [Na Ns].
  apply negb_true_iff in Na, Ns.
  repeat (apply andb_true_iff in W; destruct W as [W ?]).
  rewrite (process_match_complete d a s Ha Na Hs Ns).
  rewrite !alliance_row_ok by assumption. reflexivity.
Qed.

Lemma process_match_ill_shaped (d : dict) :
  complete d = true -> well_shaped d = false ->
  process_match (VDict d) = Raise AttributeError.
Proof.
  intros C W. unfold well_shaped in W. unfold complete, present in C.
  destruct (dict_get d "alliances") as [a|] eqn:Ha; [|discriminate].
  destruct (dict_get d "score_breakdown") as [s|] eqn:Hs;
    [|now rewrite andb_false_r in C].
  apply andb_true_iff in C. destruct C as [Na Ns].
  apply negb_true_iff in Na, Ns.
  rewrite (process_match_complete d a s Ha Na Hs Ns).
  rewrite <- andb_assoc in W.
  destruct (entry_ok is_dict a "red" && entry_ok dict_or_falsy s "red") eqn:R.
  - apply andb_true_iff in R. destruct R as [R1 R2].
    rewrite (alliance_row_ok _ _ _ _ R1 R2). cbn [bind andb] in *.
    now rewrite alliance_row_bad.
  - now rewrite alliance_row_bad.
Qed.

(** Every outcome of [process_match]: no rows, the two rows of a
    well-shaped match, or [AttributeError]. *)
Lemma process_match_cases (m : value) :
  process_match m = Raise AttributeError
  \/ (exists d, m = VDict d /\ complete d = false /\ process_match m = Ok [])
  \/ (exists d, m = VDict d /\ well_shaped d = true
                /\ process_match m = Ok [row_of d "red"; row_of d "blue"]).
Proof.
  destruct (is_dict m) eqn:D.
  - destruct m as [| | | | | |d]; try discriminate.
    destruct (complete d) eqn:C.
    + destruct (well_shaped d) eqn:W.
      * right; right. exists d. auto using process_match_well_shaped.
      * left. now apply process_match_ill_shaped.
    + right; left. exists d. auto using process_match_incomplete.
  - left. now apply process_match_not_dict.
Qed.

(** The outcome of [process_match] on a dict, in one equation. *)
Lemma process_match_eq (d : dict) :
  process_match (VDict d)
  = if complete d
    then if well_shaped d
         then Ok [row_of d "red"; row_of d "blue"]
         else Raise AttributeError
    else Ok [].
Proof.
  destruct (complete d) eqn:C.
  - destruct (well_shaped d) eqn:W.
    + now apply process_match_well_shaped.
    + now apply process_match_ill_shaped.
  - now apply process_match_incomplete.
Qed.

(** ** The fields of a row *)


Lemma flat_sb_of_NoDup (s : value) (color : string) :
  NoDup (keys (flat_sb_of s color)).
Proof.
  unfold flat_sb_of.
  destruct (py_get s color (VDict [])) as [sb|]; [|constructor].
  destruct (truthy sb); [|constructor].
  destruct (process_score_breakdown sb) as [flat|] eqn:E; [|constructor].
  exact (process_score_breakdown_NoDup sb flat E).
Qed.

Lemma flat_sb_of_no_totalPoints (s : value) (color : string) :
  dict_mem (flat_sb_of s color) "totalPoints" = false.
Proof.
  unfold flat_sb_of.
  destruct (py_get s color (VDict [])) as [sb|]; [|reflexivity].
  destruct (truthy sb); [|reflexivity].
  destruct (process_score_breakdown sb) as [flat|] eqn:E; [|reflexivity].
  exact (process_score_breakdown_no_totalPoints sb flat E).
Qed.

Lemma base_row_alliance (common_data : dict) (a : value) (color : string) :
  dict_get (base_row common_data a color) "alliance" = Some (VStr color).
Proof.
  unfold base_row. rewrite !dict_get_set. reflexivity.
Qed.

Lemma base_row_mem (common_data : dict) (a : value) (color k : string) :
  dict_mem (base_row common_data a color) k
  = str_in k ["alliance_score"; "bot3"; "bot2"; "bot1"; "alliance"]
    || dict_mem common_data k.
Proof.
  unfold base_row, str_in. rewrite !dict_mem_set. cbn [existsb].
  rewrite !(String.eqb_sym k). now rewrite orb_false_r, !orb_assoc.
Qed.

Lemma dict_mem_cons (k k' : string) (v : value) (d : dict) :
  dict_mem ((k', v) :: d) k = String.eqb k k' || dict_mem d k.
Proof. unfold dict_mem; simpl. now destruct (String.eqb k k'). Qed.

Lemma common_fields_mem_from (items acc : dict) (k : string) :
  dict_mem
    (fold_left
       (fun common_data kv =>
          if negb (str_in (fst kv) IGNORE_TOP_KEYS)
             && negb (str_in (fst kv) ["alliances"; "score_breakdown"])
          then dict_set common_data (fst kv) (snd kv)
          else common_data)
       items acc) k
  = dict_mem acc k || (kept k && dict_mem items k).
Proof.
  revert acc. induction items as [|[k1 v1] items IH]; intros acc.
  - cbn [fold_left]. unfold dict_mem at 3; simpl.
    now rewrite andb_false_r, orb_false_r.
  - cbn [fold_left fst snd]. rewrite IH, dict_mem_cons.
    fold (kept k1).
    destruct (String.eqb_spec k k1) as [->|Hne].
    + destruct (kept k1) eqn:K.
      * rewrite dict_mem_set, String.eqb_refl. simpl.
        now rewrite orb_true_r.
      * reflexivity.
    + destruct (kept k1) eqn:K; [|reflexivity].
      rewrite dict_mem_set.
      destruct (String.eqb_spec k1 k); [congruence|]. reflexivity.
Qed.

Lemma common_fields_mem (d : dict) (k : string) :
  dict_mem (common_fields d) k = kept k && dict_mem d k.
Proof. unfold common_fields. now rewrite common_fields_mem_from. Qed.

Lemma row_of_totalPoints (d : dict) (color : string) :
  dict_mem (row_of d color) "totalPoints" = dict_mem d "totalPoints".
Proof.
  unfold row_of. rewrite dict_mem_update, flat_sb_of_no_totalPoints.
  rewrite base_row_mem. unfold common_data_of.
  rewrite dict_mem_set, common_fields_mem.
  change (kept "totalPoints") with true.
  change (str_in "totalPoints"
            ["alliance_score"; "bot3"; "bot2"; "bot1"; "alliance"]) with false.
  change (String.eqb "match" "totalPoints") with false.
  cbn [orb andb]. now rewrite orb_false_r.
Qed.



(** ** The row flattener: results *)

(** C2.  A match mapping in which [alliances] is null or absent, or
    [score_breakdown] is null or absent, yields no rows: [process_match]
    returns the empty list, and the loop of [fetch_event_matches] passes
    over it without adding a row or an error. *)
Theorem incomplete_match_dropped (d : dict) :
  lacks d "alliances" \/ lacks d "score_breakdown" ->
  process_match (VDict d) = Ok []
  /\ forall event_key url i rest rows error_list,
       process_matches event_key url i (VDict d :: rest) rows error_list
       = process_matches event_key url (S i) rest rows error_list.
Proof.
  intros H.
  assert (E : process_match (VDict d) = Ok []).
  { apply process_match_incomplete. unfold complete, present.
    destruct H as [[H|H]|[H|H]]; rewrite H; cbn [is_None negb andb];
      auto using andb_false_r. }
  split; [exact E|].
  intros. cbn [process_matches]. rewrite E. now rewrite app_nil_r.
Qed.

Lemma incomplete_match_dropped_witness :
  (lacks [("key", VStr "2025ex_qm9"); ("alliances", VNone)] "alliances"
   \/ lacks [("key", VStr "2025ex_qm9"); ("alliances", VNone)]
        "score_breakdown")
  /\ process_match (VDict [("key", VStr "2025ex_qm9"); ("alliances", VNone)])
     = Ok [].
Proof.
  split.
  - left; right; reflexivity.
  - apply (incomplete_match_dropped
             [("key", VStr "2025ex_qm9"); ("alliances", VNone)]).
    left; right; reflexivity.
Defined.

(** C1, as stated, fails: a complete match whose red score breakdown has a
    field named [alliance] yields two rows, none of which has [alliance]
    equal to red. *)
Lemma alliance_field_overwritten :
  complete match_with_alliance_field = true
  /\ ~ one_row_per_alliance (VDict match_with_alliance_field).
Proof.
  split; [reflexivity|].
  intros (r1 & r2 & H & Hal). vm_compute in H.
  injection H as <- <-.
  destruct Hal as [[H1 _]|[H1 _]]; vm_compute in H1; discriminate.
Qed.

(** C1, amended.  A match mapping in which [alliances] and
    [score_breakdown] are dicts whose red and blue entries, where present,
    are dicts (a score-breakdown entry may also be falsy) yields exactly two
    rows, the first for red and the second for blue.  The [alliance] field
    of a colour's row is that colour, unless the flattened score breakdown
    of the colour has a field named [alliance], whose value it then is. *)
Theorem process_match_two_rows (d : dict) (s : value) :
  well_shaped d = true ->
  dict_get d "score_breakdown" = Some s ->
  exists red blue,
    process_match (VDict d) = Ok [red; blue]
    /\ dict_get red "alliance"
       = Some (match dict_get (flat_sb_of s "red") "alliance" with
               | Some v => v
               | None => VStr "red"
               end)
    /\ dict_get blue "alliance"
       = Some (match dict_get (flat_sb_of s "blue") "alliance" with
               | Some v => v
               | None => VStr "blue"
               end).
Proof.
  intros W Hs. exists (row_of d "red"), (row_of d "blue").
  split; [now apply process_match_well_shaped|].
  unfold row_of. rewrite Hs.
  rewrite !dict_get_update by apply flat_sb_of_NoDup.
  rewrite !base_row_alliance.
  split.
  - now destruct (dict_get (flat_sb_of s "red") "alliance").
  - now destruct (dict_get (flat_sb_of s "blue") "alliance").
Qed.

Lemma process_match_two_rows_witness :
  well_shaped scenario_dict = true
  /\ dict_get scenario_dict "score_breakdown" = Some scenario_score_breakdown
  /\ exists red blue,
       process_match (VDict scenario_dict) = Ok [red; blue]
       /\ dict_get red "alliance" = Some (VStr "red")
       /\ dict_get blue "alliance" = Some (VStr "blue").
Proof.
  split; [reflexivity|]. split; [reflexivity|].
  exact (process_match_two_rows scenario_dict scenario_score_breakdown
           eq_refl eq_refl).
Defined.




(** C5, as stated, fails: a top-level key [totalPoints] of the match is
    copied into both rows. *)
Lemma totalPoints_copied :
  ~ no_totalPoints (VDict match_with_top_totalPoints).
Proof.
  intros H.
  specialize (H _ (row_of match_with_top_totalPoints "red") eq_refl
                (or_introl eq_refl)).
  vm_compute in H. discriminate.
Qed.

(** C5, amended.  A row produced by [process_match] has a column named
    [totalPoints] exactly when the match mapping itself has a top-level key
    [totalPoints]; the score breakdown never contributes one. *)
Theorem totalPoints_only_from_match (d : dict) (rows : list dict) (row : dict) :
  process_match (VDict d) = Ok rows -> In row rows ->
  dict_mem row "totalPoints" = dict_mem d "totalPoints".
Proof.
  intros H Hin. rewrite process_match_eq in H.
  destruct (complete d); [destruct (well_shaped d)|]; try discriminate.
  - injection H as <-.
    destruct Hin as [<-|[<-|[]]]; apply row_of_totalPoints.
  - injection H as <-. destruct Hin.
Qed.

Lemma totalPoints_only_from_match_witness :
  process_match (VDict scenario_dict) = Ok [scenario_red_row; scenario_blue_row]
  /\ In scenario_red_row [scenario_red_row; scenario_blue_row]
  /\ dict_mem scenario_red_row "totalPoints"
     = dict_mem scenario_dict "totalPoints".
Proof.
  split; [reflexivity|]. split; [now left|].
  exact (totalPoints_only_from_match scenario_dict
           [scenario_red_row; scenario_blue_row] scenario_red_row
           eq_refl (or_introl eq_refl)).
Defined.



(** ** The event fetch adapter: results *)

Lemma process_matches_spec (event_key url : string) (ms : list value) :
  forall i rows error_list,
    process_matches event_key url i ms rows error_list
    = ((rows ++ rows_of_matches ms)%list,
       (error_list ++ errors_from event_key url i ms)%list).
Proof.
  induction ms as [|m ms IH]; intros i rows error_list;
    cbn [process_matches rows_of_matches flat_map errors_from].
  - now rewrite !app_nil_r.
  - unfold rows_of_match. destruct (process_match m) as [processed|e].
    + rewrite IH. unfold rows_of_matches. now rewrite <- app_assoc.
    + rewrite IH. unfold rows_of_matches. cbn [app].
      now rewrite <- app_assoc.
Qed.

Lemma errors_from_none (event_key url : string) (ms : list value) :
  Forall returns_rows ms ->
  forall i, errors_from event_key url i ms = [].
Proof.
  induction 1 as [|m ms [rows Hm] _ IH]; intros i; cbn [errors_from].
  - reflexivity.
  - rewrite Hm. apply IH.
Qed.

Lemma errors_from_app (event_key url : string) (ms ms' : list value) :
  forall i,
    errors_from event_key url i (ms ++ ms')
    = (errors_from event_key url i ms
       ++ errors_from event_key url (i + List.length ms) ms')%list.
Proof.
  induction ms as [|m ms IH]; intros i; cbn [errors_from app List.length].
  - now rewrite Nat.add_0_r.
  - rewrite IH, Nat.add_succ_r.
    destruct (process_match m); reflexivity.
Qed.

Lemma rows_of_matches_app (ms ms' : list value) :
  rows_of_matches (ms ++ ms')
  = (rows_of_matches ms ++ rows_of_matches ms')%list.
Proof. unfold rows_of_matches. apply flat_map_app. Qed.

(** C6.  When the match list fetched for an event has exactly one match on
    which [process_match] raises, at index [length before],
    [fetch_event_matches] returns the rows of all the other matches, in
    order, and appends to [error_list] exactly one record, which holds that
    index (with the event key, the match, the exception and the URL). *)
Theorem error_isolation (get : transport) (event_key : value)
    (error_list : list error_record) (before after : list value)
    (bad : value) (e : exn) :
  status_code (get (matches_url event_key)) = 200%Z ->
  json (get (matches_url event_key)) = Ok (VList (before ++ bad :: after)) ->
  process_match bad = Raise e ->
  Forall returns_rows before -> Forall returns_rows after ->
  fetch_event_matches get event_key error_list
  = (Ok (rows_of_matches before ++ rows_of_matches after)%list,
     (error_list
        ++ [MatchError (List.length before) (py_str event_key) bad e
              (matches_url event_key)])%list).
Proof.
  intros Hst Hjs Hbad Hb Ha. unfold fetch_event_matches.
  rewrite Hst, Hjs. cbn [Z.eqb Pos.eqb py_iter].
  rewrite process_matches_spec.
  rewrite rows_of_matches_app, errors_from_app.
  cbn [rows_of_matches flat_map errors_from app Nat.add].
  unfold rows_of_match at 1. rewrite Hbad. cbn [app].
  rewrite (errors_from_none _ _ before Hb), (errors_from_none _ _ after Ha).
  reflexivity.
Qed.

Lemma error_isolation_witness :
  fetch_event_matches
    (serve (VList [scenario_match; VStr "oops"; VDict match_with_alliance_field]))
    (VStr "2025ex") []
  = (Ok (rows_of_matches [scenario_match]
         ++ rows_of_matches [VDict match_with_alliance_field])%list,
     [MatchError 1 "2025ex" (VStr "oops") AttributeError
        (matches_url (VStr "2025ex"))]).
Proof.
  apply (error_isolation
           (serve (VList [scenario_match; VStr "oops";
                          VDict match_with_alliance_field]))
           (VStr "2025ex") [] [scenario_match]
           [VDict match_with_alliance_field] (VStr "oops") AttributeError).
  - reflexivity.
  - reflexivity.
  - reflexivity.
  - constructor; [|constructor]. eexists. reflexivity.
  - constructor; [|constructor]. eexists. reflexivity.
Defined.

(** ** Cells and labels *)

Lemma value_eqb_eq (a : value) : forall b, value_eqb a b = true <-> a = b.
Proof.
  induction a as [| x | x | x | x | l IH | d IH] using value_ind;
    intros b; destruct b as [| y | y | y | y | l' | d'];
    cbn [value_eqb]; try (split; [discriminate | discriminate]).
  - tauto.
  - rewrite Bool.eqb_true_iff. split; congruence.
  - rewrite Z.eqb_eq. split; congruence.
  - rewrite String.eqb_eq. split; congruence.
  - rewrite String.eqb_eq. split; congruence.
  - revert l'. induction IH as [|a l Ha _ IHl]; intros l'.
    + destruct l'; split; congruence.
    + destruct l' as [|b l']; [split; discriminate|].
      rewrite andb_true_iff, Ha, IHl. split.
      * intros [-> [= ->]]. reflexivity.
      * intros [= -> ->]. auto.
  - revert d'. induction IH as [|[k a] d Ha _ IHd]; intros d'.
    + destruct d'; split; congruence.
    + destruct d' as [|[k' b] d']; [split; discriminate|].
      cbn [snd] in Ha.
      rewrite !andb_true_iff, String.eqb_eq, Ha, IHd. split.
      * intros [[-> ->] [= ->]]. reflexivity.
      * intros [= -> -> ->]. auto.
Qed.

Lemma value_eqb_refl (a : value) : value_eqb a a = true.
Proof. now apply value_eqb_eq. Qed.

Lemma existsb_value_eqb (x : value) (l : list value) :
  existsb (value_eqb x) l = true <-> In x l.
Proof.
  rewrite existsb_exists. split.
  - intros [y [Hy E]]. apply value_eqb_eq in E. now subst.
  - intros H. exists x. split; [assumption | apply value_eqb_refl].
Qed.

Lemma str_in_In (x : string) (l : list string) :
  str_in x l = true <-> In x l.
Proof.
  unfold str_in. rewrite existsb_exists. split.
  - intros [y [Hy E]]. apply String.eqb_eq in E. now subst.
  - intros H. exists x. split; [assumption | apply String.eqb_refl].
Qed.

Lemma In_unique_from (x : value) (l seen : list value) :
  In x (unique_from seen l) \/ In x seen <-> In x l \/ In x seen.
Proof.
  revert seen. induction l as [|y l IH]; intros seen; cbn [unique_from].
  - tauto.
  - destruct (existsb (value_eqb y) seen) eqn:E.
    + apply existsb_value_eqb in E. rewrite IH. simpl.
      split; [tauto | intros [[<-|H]|H]; tauto].
    + simpl. specialize (IH (y :: seen)). simpl in IH. tauto.
Qed.

Lemma In_unique (x : value) (l : list value) : In x (unique l) <-> In x l.
Proof.
  unfold unique. pose proof (In_unique_from x l []) as H. simpl in H. tauto.
Qed.

Lemma existsb_unique (x : value) (l : list value) :
  existsb (value_eqb x) (unique l) = existsb (value_eqb x) l.
Proof.
  apply eq_true_iff_eq. rewrite !existsb_value_eqb. apply In_unique.
Qed.

Lemma select_map (f : dict -> bool) (rs : list dict) :
  select rs (map f rs) = filter f rs.
Proof.
  induction rs as [|r rs IH]; cbn [select map filter]; [reflexivity|].
  rewrite IH. reflexivity.
Qed.

(** ** The dataset reconciler: results *)

(** [to_excel] returns normally only after writing the whole frame. *)
Lemma to_excel_Ok (df : DataFrame) (file file' : file_state) (u : unit) :
  to_excel df file = (Ok u, file') -> file' = Some df.
Proof.
  unfold to_excel. destruct (too_large df); [discriminate|].
  destruct (written_before _ (columns df)); [discriminate|].
  destruct (body_written [] (columns df) (rows df)); [discriminate|].
  now intros [= _ <-].
Qed.

(** A control character in a [match] cell: [update_file] raises, and the
    header and the column written before that cell stay in the sheet. *)
Example update_file_torn_sheet :
  update_file
    {| columns := ["event_key"; "match"];
       rows := [[("event_key", VStr "2025ex");
                 ("match", VStr (String (ascii_of_nat 7) EmptyString))]] |}
    "replace" None
  = (Raise IllegalCharacterError,
     Some {| columns := ["event_key"; "match"];
             rows := [[("event_key", VStr "2025ex")]] |}).
Proof. reflexivity. Qed.

Lemma update_file_Ok (new_data_df : DataFrame) (mode : string)
    (file file' : file_state) (u : unit) :
  update_file new_data_df mode file = (Ok u, file') ->
  exists df, file' = Some df /\ frame_to_write new_data_df mode file = Ok df.
Proof.
  unfold update_file.
  destruct (frame_to_write new_data_df mode file) as [df|e]; [|discriminate].
  intros H. apply to_excel_Ok in H. exists df. auto.
Qed.

Lemma update_file_written (new_data_df : DataFrame) (mode : string)
    (file : file_state) (df : DataFrame) :
  update_file new_data_df mode file = (Ok tt, Some df) ->
  frame_to_write new_data_df mode file = Ok df.
Proof.
  intros H. apply update_file_Ok in H. destruct H as (df' & E & H).
  congruence.
Qed.

Lemma frame_to_write_replace (new_data_df : DataFrame) (file : file_state) :
  frame_to_write new_data_df "replace" file = Ok (reorder_columns new_data_df).
Proof. reflexivity. Qed.

Lemma frame_to_write_no_file (new_data_df : DataFrame) (mode : string) :
  frame_to_write new_data_df mode None = Ok (reorder_columns new_data_df).
Proof. unfold frame_to_write. now destruct (String.eqb mode "replace"). Qed.

Lemma update_file_no_file (new_data_df : DataFrame) (mode : string) :
  update_file new_data_df mode None
  = to_excel (reorder_columns new_data_df) None.
Proof. unfold update_file. now rewrite frame_to_write_no_file. Qed.

(** The frame handed to [to_excel] in any mode other than ["replace"] when
    the file exists and both frames have an [event_key] column. *)
Lemma frame_to_write_merge (existing new_data_df : DataFrame) (mode : string) :
  mode <> "replace" ->
  In "event_key" (columns existing) ->
  In "event_key" (columns new_data_df) ->
  frame_to_write new_data_df mode (Some existing)
  = Ok (reorder_columns
          {| columns := union_columns (columns existing) (columns new_data_df);
             rows := (filter (fun r => negb (mentioned new_data_df r))
                        (rows existing)
                      ++ rows new_data_df)%list |}).
Proof.
  intros Hm He Hn. unfold frame_to_write, getitem_column.
  destruct (String.eqb_spec mode "replace") as [->|_]; [congruence|].
  apply str_in_In in He, Hn. rewrite He, Hn. cbn [bind].
  unfold concat, getitem_mask, isin. cbn [columns rows].
  rewrite !map_map, select_map.
  rewrite (filter_ext _ (fun r => negb (mentioned new_data_df r)));
    [reflexivity|].
  intros r. unfold mentioned, event_keys. now rewrite existsb_unique.
Qed.

(** When lines 238-246 return a frame, either it is the incoming frame
    reordered (Replace mode, or no file), or the file exists, both frames
    have the [event_key] column and it is the merged frame reordered. *)
Lemma frame_to_write_cases (new_data_df : DataFrame) (mode : string)
    (file : file_state) (df : DataFrame) :
  frame_to_write new_data_df mode file = Ok df ->
  ((mode = "replace" \/ file = None) /\ df = reorder_columns new_data_df)
  \/ exists existing,
       mode <> "replace" /\ file = Some existing
       /\ In "event_key" (columns existing)
       /\ In "event_key" (columns new_data_df)
       /\ df = reorder_columns
                 {| columns := union_columns (columns existing)
                                 (columns new_data_df);
                    rows := (filter (fun r => negb (mentioned new_data_df r))
                               (rows existing)
                             ++ rows new_data_df)%list |}.
Proof.
  intros H.
  destruct (String.eqb_spec mode "replace") as [->|Hm].
  - left. rewrite frame_to_write_replace in H. split; [now left | congruence].
  - destruct file as [existing|].
    + right. exists existing.
      destruct (str_in "event_key" (columns new_data_df)) eqn:En.
      * destruct (str_in "event_key" (columns existing)) eqn:Ee.
        -- apply str_in_In in En, Ee.
           rewrite (frame_to_write_merge existing new_data_df mode Hm Ee En)
             in H.
           repeat split; congruence || assumption.
        -- exfalso. revert H. unfold frame_to_write, getitem_column.
           destruct (String.eqb_spec mode "replace"); [contradiction|].
           rewrite En, Ee. discriminate.
      * exfalso. revert H. unfold frame_to_write, getitem_column.
        destruct (String.eqb_spec mode "replace"); [contradiction|].
        rewrite En. discriminate.
    + left. rewrite frame_to_write_no_file in H.
      split; [now right | congruence].
Qed.

(** The rows of the frame handed to [to_excel]. *)
Lemma frame_to_write_rows (new_data_df : DataFrame) (mode : string)
    (file : file_state) (df : DataFrame) :
  frame_to_write new_data_df mode file = Ok df ->
  rows df = (kept_rows new_data_df mode file ++ rows new_data_df)%list.
Proof.
  intros H. apply frame_to_write_cases in H. unfold kept_rows.
  destruct H as [[[-> | ->] ->] | (existing & Hm & -> & _ & _ & ->)].
  - reflexivity.
  - now destruct (String.eqb mode "replace").
  - apply String.eqb_neq in Hm. now rewrite Hm.
Qed.

(** Without an [event_key] column in the incoming frame, the lookup of line
    242 raises and the file is left as it was. *)
Lemma update_file_no_event_key (existing new_data_df : DataFrame)
    (mode : string) :
  mode <> "replace" ->
  ~ In "event_key" (columns new_data_df) ->
  update_file new_data_df mode (Some existing) = (Raise KeyError, Some existing).
Proof.
  intros Hm Hn. unfold update_file, frame_to_write, getitem_column.
  destruct (String.eqb_spec mode "replace") as [->|_]; [congruence|].
  destruct (str_in "event_key" (columns new_data_df)) eqn:E.
  - apply str_in_In in E. contradiction.
  - reflexivity.
Qed.

(** C3, as stated, fails: a batch with one row and no [event_key] column,
    upserted into the dataset of the events A and B, makes line 242 raise
    [KeyError]; nothing is written, and the dataset keeps its three rows
    where the claim has them followed by the incoming row. *)
Lemma upsert_raises_KeyError :
  rows incoming_unkeyed <> []
  /\ update_file incoming_unkeyed "update" (Some existing_AB)
     = (Raise KeyError, Some existing_AB)
  /\ rows existing_AB
     <> (filter (fun r => negb (mentioned incoming_unkeyed r))
           (rows existing_AB)
         ++ rows incoming_unkeyed)%list.
Proof.
  split; [discriminate|]. split; [reflexivity|].
  vm_compute. discriminate.
Qed.

(** C3, amended.  Whenever [update_file] returns normally in Upsert mode
    ([mode="update"]) on an existing dataset, the dataset it has written is
    exactly the existing rows whose event identifier does not occur in the
    incoming batch, unchanged and in order, followed by all incoming rows:
    existing rows of events the batch mentions are all dropped.  Both frames
    then have the [event_key] column. *)
Theorem upsert_by_event (existing new_data_df df : DataFrame) :
  update_file new_data_df "update" (Some existing) = (Ok tt, Some df) ->
  rows df
  = (filter (fun r => negb (mentioned new_data_df r)) (rows existing)
     ++ rows new_data_df)%list
  /\ (forall r,
        mentioned new_data_df r = true
        <-> In (cell r "event_key") (event_keys new_data_df))
  /\ In "event_key" (columns existing)
  /\ In "event_key" (columns new_data_df).
Proof.
  intros H. apply update_file_written, frame_to_write_cases in H.
  destruct H as [[[H | H] _] | (existing' & _ & E & He & Hn & ->)];
    try discriminate.
  injection E as <-.
  split; [reflexivity|]. split; [|now split].
  intros r. apply existsb_value_eqb.
Qed.

Lemma upsert_by_event_witness :
  update_file incoming_A "update" (Some existing_AB)
  = (Ok tt, Some merged_AB)
  /\ rows merged_AB
     = [stored_row "B" "qm 1" "red" 2; stored_row "A" "qm 1" "red" 7].
Proof.
  split; [reflexivity|].
  rewrite (proj1 (upsert_by_event existing_AB incoming_A merged_AB eq_refl)).
  reflexivity.
Defined.

(** Dropping rows keeps the triples of the remaining rows distinct. *)
Lemma filter_rows_unique (keep : dict -> bool) (rs : list dict) :
  NoDup (map triple rs) -> NoDup (map triple (filter keep rs)).
Proof.
  intros Hnd. induction rs as [|r rs IH]; [constructor|].
  cbn [map] in Hnd. apply NoDup_cons_iff in Hnd. destruct Hnd as [Hr Hrs].
  cbn [filter]. destruct (keep r); [|auto].
  cbn [map]. apply NoDup_cons; [|auto].
  rewrite in_map_iff in *. intros (r' & E & Hin).
  apply Hr. exists r'. apply filter_In in Hin. tauto.
Qed.

(** No row that [update_file] keeps shares its triple with an incoming
    row: their event identifiers differ. *)
Lemma kept_rows_apart (new_data_df : DataFrame) (mode : string)
    (file : file_state) (r1 r2 : dict) :
  In r1 (kept_rows new_data_df mode file) -> In r2 (rows new_data_df) ->
  triple r1 <> triple r2.
Proof.
  unfold kept_rows. intros H1 H2 E.
  destruct (String.eqb mode "replace"); [destruct H1|].
  apply filter_In in H1. destruct H1 as [_ H1].
  apply negb_true_iff in H1.
  assert (M : mentioned new_data_df r1 = true).
  { apply existsb_value_eqb. unfold event_keys. apply in_map_iff.
    exists r2. split; [|assumption]. unfold triple in E. congruence. }
  congruence.
Qed.

Lemma NoDup_triples_app (rs rs' : list dict) :
  NoDup (map triple (rs ++ rs')%list) ->
  NoDup (map triple rs) /\ NoDup (map triple rs').
Proof.
  rewrite map_app. intros H.
  split; [now apply NoDup_app_remove_r in H | now apply NoDup_app_remove_l in H].
Qed.

(** C7, as stated, fails: the two semifinals of a bracket both have match
    number 1, so the batch of the event, written in Replace mode, has two
    rows for (2025ex, sf 1, red). *)
Lemma semifinals_share_triple :
  exists df,
    snd (load_all_events two_semifinals one_event None) = Some df
    /\ ~ unique_triples df.
Proof.
  eexists. split; [vm_compute; reflexivity|].
  unfold unique_triples. cbn [rows map triple cell dict_get String.eqb
    Ascii.eqb Bool.eqb]. intros H.
  inversion H as [|? ? Hnotin _]; subst. apply Hnotin.
  right; left. reflexivity.
Qed.

(** C7, amended.  Whenever [update_file] returns normally, in either mode
    and with or without a file, the dataset it has written has at most one
    row per (event, match, alliance) triple exactly when the incoming batch
    has at most one row per triple and so have the existing rows it keeps:
    none in Replace mode, in Upsert mode those of the events the batch does
    not mention.  (The batch pipeline itself does not ensure this of its
    batch.) *)
Theorem reconcile_keeps_triples_unique (new_data_df : DataFrame)
    (mode : string) (file : file_state) (df : DataFrame) :
  update_file new_data_df mode file = (Ok tt, Some df) ->
  unique_triples df
  <-> unique_triples new_data_df
      /\ NoDup (map triple (kept_rows new_data_df mode file)).
Proof.
  intros H. apply update_file_written, frame_to_write_rows in H.
  unfold unique_triples. rewrite H. split.
  - intros U. apply NoDup_triples_app in U. tauto.
  - intros [Un Uk]. rewrite map_app.
    apply NoDup_app; [assumption | assumption |].
    intros t H1 H2.
    apply in_map_iff in H1. destruct H1 as [r1 [<- H1]].
    apply in_map_iff in H2. destruct H2 as [r2 [E H2]].
    now apply (kept_rows_apart new_data_df mode file r1 r2 H1 H2).
Qed.

Lemma reconcile_keeps_triples_unique_witness :
  update_file incoming_A "update" (Some existing_AB) = (Ok tt, Some merged_AB)
  /\ unique_triples merged_AB.
Proof.
  split; [reflexivity|].
  apply (proj2 (reconcile_keeps_triples_unique incoming_A "update"
                  (Some existing_AB) merged_AB eq_refl)).
  split.
  - unfold unique_triples. cbn. repeat constructor; cbn; intuition.
  - cbn. repeat constructor; cbn; intuition.
Defined.



(** ** Column order *)

Lemma str_in_list_remove (x y : string) (l : list string) :
  x <> y -> str_in x (list_remove y l) = str_in x l.
Proof.
  intros Hne. unfold str_in.
  induction l as [|c l IH]; cbn [list_remove existsb]; [reflexivity|].
  destruct (String.eqb_spec y c) as [<-|Hc].
  - destruct (String.eqb_spec x y); [congruence | reflexivity].
  - cbn [existsb]. now rewrite IH.
Qed.

Lemma filter_list_remove (p : string -> bool) (y : string) (l : list string) :
  p y = false -> filter p (list_remove y l) = filter p l.
Proof.
  intros Hy. induction l as [|c l IH]; cbn [list_remove filter]; [reflexivity|].
  destruct (String.eqb_spec y c) as [<-|Hc].
  - now rewrite Hy.
  - cbn [filter]. now rewrite IH.
Qed.

Lemma list_remove_NoDup (y : string) (l : list string) :
  NoDup l -> list_remove y l = filter (fun c => negb (String.eqb y c)) l.
Proof.
  induction 1 as [|c l Hnotin Hnd IH]; cbn [list_remove filter]; [reflexivity|].
  destruct (String.eqb_spec y c) as [<-|Hc]; cbn [negb].
  - symmetry. apply forallb_filter_id. apply forallb_forall. intros x Hx.
    destruct (String.eqb_spec y x); [congruence | reflexivity].
  - now rewrite IH.
Qed.

Lemma filter_pinned (l : list string) :
  filter (fun c => negb (String.eqb "winning_alliance" c))
    (filter (fun c => negb (String.eqb "match" c))
       (filter (fun c => negb (String.eqb "event_key" c)) l))
  = filter other_column l.
Proof.
  induction l as [|c l IH]; [reflexivity|].
  unfold other_column, pinned, str_in in *. cbn [filter existsb].
  rewrite (String.eqb_sym c "event_key"), (String.eqb_sym c "match"),
    (String.eqb_sym c "winning_alliance"), orb_false_r.
  destruct (String.eqb "event_key" c); cbn [negb filter orb]; [exact IH|].
  destruct (String.eqb "match" c); cbn [negb filter orb]; [exact IH|].
  destruct (String.eqb "winning_alliance" c); cbn [negb filter orb];
    [exact IH|].
  f_equal. exact IH.
Qed.

Lemma new_order_pinned (cols : list string) :
  In "event_key" cols -> In "match" cols -> In "winning_alliance" cols ->
  new_order cols
  = "event_key" :: "match" :: "winning_alliance"
    :: list_remove "winning_alliance"
         (list_remove "match" (list_remove "event_key" cols)).
Proof.
  intros He Hm Hw. apply str_in_In in He, Hm, Hw.
  unfold new_order. cbn [fold_left]. unfold pin_column at 3. rewrite He.
  unfold pin_column at 2.
  rewrite (str_in_list_remove "match" "event_key") by discriminate.
  rewrite Hm. unfold pin_column.
  rewrite (str_in_list_remove "winning_alliance" "match") by discriminate.
  rewrite (str_in_list_remove "winning_alliance" "event_key") by discriminate.
  rewrite Hw. reflexivity.
Qed.

(** C9.  When [event_key], [match] and [winning_alliance] are all among
    the columns of a dataset, [reorder_columns] puts them first, in that
    order, before every other column; the other columns follow in the order
    they had (and, the labels of a frame being distinct, are all that
    follows); the rows are untouched. *)
Theorem pinned_columns_first (df : DataFrame) :
  In "event_key" (columns df) ->
  In "match" (columns df) ->
  In "winning_alliance" (columns df) ->
  exists rest,
    columns (reorder_columns df)
    = "event_key" :: "match" :: "winning_alliance" :: rest
    /\ filter other_column rest = filter other_column (columns df)
    /\ (NoDup (columns df) -> rest = filter other_column (columns df))
    /\ rows (reorder_columns df) = rows df.
Proof.
  intros He Hm Hw. eexists. split.
  - unfold reorder_columns. cbn [columns]. now apply new_order_pinned.
  - split; [|split; [|reflexivity]].
    + now rewrite !filter_list_remove.
    + intros Hnd.
      rewrite (list_remove_NoDup "event_key") by assumption.
      rewrite (list_remove_NoDup "match") by now apply NoDup_filter.
      rewrite (list_remove_NoDup "winning_alliance")
        by now do 2 apply NoDup_filter.
      apply filter_pinned.
Qed.

Lemma pinned_columns_first_witness :
  exists rest,
    columns
      (reorder_columns
         {| columns := ["alliance"; "winning_alliance"; "event_key"; "bot1";
                        "match"];
            rows := [] |})
    = "event_key" :: "match" :: "winning_alliance" :: rest
    /\ rest = ["alliance"; "bot1"].
Proof.
  destruct (pinned_columns_first
              {| columns := ["alliance"; "winning_alliance"; "event_key";
                             "bot1"; "match"];
                 rows := [] |}) as (rest & E & _ & R & _).
  - cbn. tauto.
  - cbn. tauto.
  - cbn. tauto.
  - exists rest. split; [exact E|]. apply R.
    cbn. repeat constructor; cbn; intuition discriminate.
Defined.

(** * Further properties *)

(** ** The score-breakdown flattener: which fields come out *)

Lemma In_keys_set (d : dict) (k k' : string) (v : value) :
  In k (keys (dict_set d k' v)) <-> k = k' \/ In k (keys d).
Proof.
  rewrite <- !dict_mem_keys, dict_mem_set, orb_true_iff, String.eqb_eq.
  split; intros [H|H]; auto.
Qed.

Lemma In_keys_flatten_reef (key : string) (sub acc : dict) (k : string) :
  In k (keys (flatten_reef key sub acc))
  <-> In k (keys acc)
      \/ exists child v,
           In (child, v) sub /\ str_in child IGNORE_REEF_KEYS = false
           /\ k = key ++ "_" ++ child.
Proof.
  unfold flatten_reef. revert acc.
  induction sub as [|[c x] sub IH]; intros acc; cbn [fold_left fst snd].
  - split; [auto | intros [H|(c & x & [] & _)]; exact H].
  - rewrite IH. destruct (str_in c IGNORE_REEF_KEYS) eqn:E; cbn [negb].
    + split.
      * intros [H|(c' & x' & Hin & Hc & Hk)]; [auto|].
        right. exists c', x'. split; [now right | auto].
      * intros [H|(c' & x' & [Hin|Hin] & Hc & Hk)]; [auto | | ].
        -- inversion Hin; subst. congruence.
        -- right. exists c', x'. auto.
    + rewrite In_keys_set. split.
      * intros [[H|H]|(c' & x' & Hin & Hc & Hk)]; [| auto |].
        -- right. exists c, x. split; [now left | auto].
        -- right. exists c', x'. split; [now right | auto].
      * intros [H|(c' & x' & [Hin|Hin] & Hc & Hk)]; [auto | | ].
        -- inversion Hin; subst. auto.
        -- right. exists c', x'. auto.
Qed.

Lemma In_keys_flatten_item (acc : dict) (key : string) (val : value)
    (k : string) :
  In k (keys (flatten_item acc (key, val)))
  <-> In k (keys acc)
      \/ copied_key [(key, val)] k \/ lifted_key [(key, val)] k.
Proof.
  unfold flatten_item, copied_key, lifted_key.
  destruct (String.eqb_spec key "totalPoints") as [->|Hne].
  - split; [auto|]. intros [H|[(Hk & v & [Hin|[]] & _)|H]]; [exact H | |].
    + inversion Hin; subst. congruence.
    + destruct H as (p & sub & c & v & [Hin|[]] & Hp & _).
      inversion Hin; subst. discriminate.
  - assert (Hcopy : is_reef key && is_dict val = false ->
                    (In k (keys (dict_set acc key val))
                     <-> In k (keys acc)
                         \/ (k <> "totalPoints"
                             /\ exists v, In (k, v) [(key, val)]
                                           /\ is_reef k && is_dict v = false)
                         \/ (exists p sub c v,
                               In (p, VDict sub) [(key, val)]
                               /\ is_reef p = true /\ In (c, v) sub
                               /\ str_in c IGNORE_REEF_KEYS = false
                               /\ k = p ++ "_" ++ c))).
    { intros Hr. rewrite In_keys_set. split.
      - intros [->|H]; [|auto]. right; left. split; [exact Hne|].
        exists val. split; [now left | exact Hr].
      - intros [H|[(_ & v & [Hin|[]] & _)|H]]; [auto | |].
        + inversion Hin; subst. auto.
        + destruct H as (p & sub & c & v & [Hin|[]] & Hp & _).
          inversion Hin; subst. rewrite Hp in Hr. discriminate. }
    destruct val as [| | | | | |sub];
      try (apply Hcopy; now rewrite andb_false_r).
    fold (is_reef key). destruct (is_reef key) eqn:R.
    + rewrite In_keys_flatten_reef. split.
      * intros [H|(c & v & Hin & Hc & Hk)]; [auto|].
        right; right. exists key, sub, c, v. split; [now left | auto].
      * intros [H|[(_ & v & [Hin|[]] & Hv)|H]]; [auto | |].
        -- inversion Hin; subst. rewrite R in Hv. discriminate.
        -- destruct H as (p & sub' & c & v & [Hin|[]] & Hp & Hc & Hi & Hk).
           inversion Hin; subst. right. exists c, v. auto.
    + apply Hcopy. reflexivity.
Qed.

Lemma copied_key_cons (kv : string * value) (items : dict) (k : string) :
  copied_key (kv :: items) k <-> copied_key [kv] k \/ copied_key items k.
Proof.
  unfold copied_key. split.
  - intros (Hk & v & [Hin|Hin] & Hv).
    + left. split; [exact Hk|]. exists v. split; [now left | exact Hv].
    + right. split; [exact Hk|]. exists v. auto.
  - intros [(Hk & v & [Hin|[]] & Hv)|(Hk & v & Hin & Hv)];
      (split; [exact Hk|]); exists v; (split; [|exact Hv]).
    + now left.
    + now right.
Qed.

Lemma lifted_key_cons (kv : string * value) (items : dict) (k : string) :
  lifted_key (kv :: items) k <-> lifted_key [kv] k \/ lifted_key items k.
Proof.
  unfold lifted_key. split.
  - intros (p & sub & c & v & [Hin|Hin] & H).
    + left. exists p, sub, c, v. split; [now left | exact H].
    + right. exists p, sub, c, v. auto.
  - intros [(p & sub & c & v & [Hin|[]] & H)|(p & sub & c & v & Hin & H)];
      exists p, sub, c, v; (split; [|exact H]).
    + now left.
    + now right.
Qed.

Lemma In_keys_flatten (items acc : dict) (k : string) :
  In k (keys (fold_left flatten_item items acc))
  <-> In k (keys acc) \/ copied_key items k \/ lifted_key items k.
Proof.
  revert acc. induction items as [|[key val] items IH]; intros acc;
    cbn [fold_left].
  - split; [auto|]. intros [H|[(_ & v & [] & _)|(p & s & c & v & [] & _)]].
    exact H.
  - rewrite (copied_key_cons (key, val) items k).
    rewrite (lifted_key_cons (key, val) items k).
    rewrite IH, In_keys_flatten_item. tauto.
Qed.

(** X1.  The fields [process_score_breakdown] returns for a dict are
    exactly the keys it copies (every key but [totalPoints] and the reef
    keys whose value is a dict) and the names [parent_child] it lifts out
    of the reef dicts for the sub-keys outside [IGNORE_REEF_KEYS]. *)
Theorem flattened_fields (sb : dict) :
  exists flat,
    process_score_breakdown (VDict sb) = Ok flat
    /\ forall k, In k (keys flat) <-> copied_key sb k \/ lifted_key sb k.
Proof.
  eexists. split; [reflexivity|]. intros k.
  rewrite In_keys_flatten. cbn [keys map In]. tauto.
Qed.

Lemma lifted_name_not_ignored (parent child p c : string) :
  is_reef parent = true -> str_in child IGNORE_REEF_KEYS = true ->
  is_reef p = true -> str_in c IGNORE_REEF_KEYS = false ->
  parent ++ "_" ++ child <> p ++ "_" ++ c.
Proof.
  unfold is_reef, str_in. cbn [existsb]. rewrite !orb_false_r.
  intros Hp Hc Hp' Hc' E.
  apply orb_true_iff in Hp, Hp'.
  destruct Hp as [Hp|Hp], Hp' as [Hp'|Hp'];
    apply String.eqb_eq in Hp, Hp'; subst parent p;
    cbn [append] in E; try discriminate;
    repeat (injection E as E); subst c; congruence.
Qed.

(** X2.  A sub-key of [IGNORE_REEF_KEYS] is never lifted out of a reef
    dict: a field named [autoReef_botRow] (and so on for both reef keys and
    the three ignored sub-keys) is among the flattened fields only when the
    score breakdown itself has a top-level key of that very name. *)
Theorem ignored_reef_keys_not_lifted (sb flat : dict) (parent child : string) :
  process_score_breakdown (VDict sb) = Ok flat ->
  is_reef parent = true -> str_in child IGNORE_REEF_KEYS = true ->
  dict_mem sb (parent ++ "_" ++ child) = false ->
  dict_mem flat (parent ++ "_" ++ child) = false.
Proof.
  intros Hf Hp Hc Hsb. injection Hf as <-.
  destruct (dict_mem _ (parent ++ "_" ++ child)) eqn:E at 1;
    [|reflexivity].
  exfalso. apply dict_mem_keys in E. apply In_keys_flatten in E.
  destruct E as [[]|[(_ & v & Hin & _)|(p & sub & c & v & _ & Hr & _ & Hi & Hk)]].
  - assert (In (parent ++ "_" ++ child) (keys sb))
      by (apply in_map_iff; exists (parent ++ "_" ++ child, v); auto).
    apply dict_mem_keys in H. congruence.
  - exact (lifted_name_not_ignored parent child p c Hp Hc Hr Hi Hk).
Qed.

Lemma ignored_reef_keys_not_lifted_witness :
  dict_mem scenario_red_breakdown "autoReef_botRow" = false
  /\ forall flat,
       process_score_breakdown (VDict scenario_red_breakdown) = Ok flat ->
       dict_mem flat "autoReef_botRow" = false.
Proof.
  split; [reflexivity|]. intros flat H.
  exact (ignored_reef_keys_not_lifted scenario_red_breakdown flat
           "autoReef" "botRow" H eq_refl eq_refl eq_refl).
Defined.

Lemma dict_set_fresh (d : dict) (k : string) (v : value) :
  dict_mem d k = false -> dict_set d k v = (d ++ [(k, v)])%list.
Proof.
  unfold dict_mem. induction d as [|[k' v'] d IH]; cbn [dict_get dict_set app];
    [reflexivity|].
  destruct (String.eqb k k'); [discriminate|].
  intros H. now rewrite IH.
Qed.

Lemma dict_mem_app (d e : dict) (k : string) :
  dict_mem (d ++ e)%list k = dict_mem d k || dict_mem e k.
Proof.
  induction d as [|[k' v'] d IH]; [reflexivity|].
  cbn [app]. rewrite !dict_mem_cons, IH. now rewrite orb_assoc.
Qed.

Lemma flatten_plain_items (items acc : dict) :
  NoDup (keys items) -> has_reef_dict items = false ->
  (forall k, In k (keys items) -> dict_mem acc k = false) ->
  fold_left flatten_item items acc
  = (acc ++ filter not_totalPoints items)%list.
Proof.
  revert acc. induction items as [|[k v] items IH]; intros acc Hnd Hr Hacc.
  - cbn [fold_left filter]. now rewrite app_nil_r.
  - cbn [keys map fst] in Hnd. apply NoDup_cons_iff in Hnd.
    destruct Hnd as [Hk Hnd].
    cbn [has_reef_dict existsb fst snd] in Hr. apply orb_false_iff in Hr.
    destruct Hr as [Hkv Hr].
    assert (Hstep : flatten_item acc (k, v)
                    = if String.eqb k "totalPoints" then acc
                      else (acc ++ [(k, v)])%list).
    { unfold flatten_item. destruct (String.eqb k "totalPoints"); [reflexivity|].
      rewrite <- (dict_set_fresh acc k v) by (apply Hacc; now left).
      destruct v; try reflexivity.
      unfold is_reef in Hkv. rewrite andb_true_r in Hkv. now rewrite Hkv. }
    cbn [fold_left filter]. rewrite Hstep. unfold not_totalPoints at 1.
    cbn [fst]. destruct (String.eqb k "totalPoints"); cbn [negb].
    + apply IH; [assumption | assumption |].
      intros k' Hk'. apply Hacc. now right.
    + rewrite IH; [now rewrite <- app_assoc | assumption | assumption |].
      intros k' Hk'. rewrite dict_mem_app, dict_mem_cons.
      rewrite (Hacc k') by now right.
      destruct (String.eqb_spec k' k) as [->|_]; [contradiction | reflexivity].
Qed.

(** X3.  A score breakdown without a reef dict comes back as it is, in the
    same order, less its [totalPoints] entry: nested objects under any other
    key are copied whole, never flattened. *)
Theorem plain_breakdown_copied (sb : dict) :
  NoDup (keys sb) -> has_reef_dict sb = false ->
  process_score_breakdown (VDict sb) = Ok (filter not_totalPoints sb).
Proof.
  intros Hnd Hr. unfold process_score_breakdown. cbn [py_items bind].
  now rewrite (flatten_plain_items sb [] Hnd Hr).
Qed.

Lemma plain_breakdown_copied_witness :
  process_score_breakdown
    (VDict [("totalPoints", VInt 9); ("cage", VDict [("deep", VBool true)]);
            ("foulPoints", VInt 0)])
  = Ok [("cage", VDict [("deep", VBool true)]); ("foulPoints", VInt 0)].
Proof.
  apply (plain_breakdown_copied
           [("totalPoints", VInt 9); ("cage", VDict [("deep", VBool true)]);
            ("foulPoints", VInt 0)]).
  - cbn. repeat constructor; cbn; intuition discriminate.
  - reflexivity.
Defined.

(** ** The rows of a match: their columns *)

Lemma row_for_row_of (d : dict) (rows : list dict) (color : string)
    (row : dict) :
  process_match (VDict d) = Ok rows -> row_for rows color = Some row ->
  well_shaped d = true /\ row = row_of d color.
Proof.
  intros H Hr. rewrite process_match_eq in H.
  destruct (complete d); [destruct (well_shaped d)|]; try discriminate;
    injection H as <-; unfold row_for in Hr.
  - destruct (String.eqb_spec color "red") as [->|_].
    + injection Hr as <-. auto.
    + destruct (String.eqb_spec color "blue") as [->|_]; [|discriminate].
      injection Hr as <-. auto.
  - destruct (String.eqb color "red"); [discriminate|].
    destruct (String.eqb color "blue"); discriminate.
Qed.

Lemma NoDup_keys_update (d e : dict) :
  NoDup (keys d) -> NoDup (keys (dict_update d e)).
Proof.
  unfold dict_update. revert d.
  induction e as [|[k v] e IH]; intros d H; cbn [fold_left fst snd];
    [assumption|].
  apply IH. now apply NoDup_keys_set.
Qed.

Lemma NoDup_keys_common_fields (items : dict) :
  NoDup (keys (common_fields items)).
Proof.
  unfold common_fields.
  assert (G : forall acc, NoDup (keys acc) ->
              NoDup (keys (fold_left
                (fun common_data kv =>
                   if negb (str_in (fst kv) IGNORE_TOP_KEYS)
                      && negb (str_in (fst kv) ["alliances"; "score_breakdown"])
                   then dict_set common_data (fst kv) (snd kv)
                   else common_data) items acc))).
  { induction items as [|kv items IH]; intros acc H; cbn [fold_left];
      [assumption|].
    apply IH.
    destruct (negb (str_in (fst kv) IGNORE_TOP_KEYS)
              && negb (str_in (fst kv) ["alliances"; "score_breakdown"]));
      [now apply NoDup_keys_set | assumption]. }
  apply G. constructor.
Qed.

Lemma NoDup_keys_row_of (d : dict) (color : string) :
  NoDup (keys (row_of d color)).
Proof.
  unfold row_of, base_row, common_data_of.
  apply NoDup_keys_update. repeat apply NoDup_keys_set.
  apply NoDup_keys_common_fields.
Qed.

Lemma row_of_derived (d : dict) (color k : string) :
  str_in k derived_columns = true -> dict_mem (row_of d color) k = true.
Proof.
  intros H. unfold row_of. rewrite dict_mem_update, base_row_mem.
  unfold common_data_of. rewrite dict_mem_set.
  unfold derived_columns, str_in in *. cbn [existsb] in *.
  rewrite (String.eqb_sym "match" k).
  repeat (apply orb_true_iff in H; destruct H as [H|H]);
    try discriminate; rewrite H; cbn [orb]; now rewrite ?orb_true_r.
Qed.

Lemma row_columns (m : value) (rows : list dict) (row : dict) :
  process_match m = Ok rows -> In row rows ->
  NoDup (keys row)
  /\ forall k, In k derived_columns -> dict_mem row k = true.
Proof.
  intros H Hin.
  destruct (process_match_cases m) as [E|[(d & -> & _ & E)|(d & -> & _ & E)]];
    rewrite E in H; try discriminate; injection H as <-.
  - destruct Hin.
  - assert (G : forall color,
               NoDup (keys (row_of d color))
               /\ forall k, In k derived_columns ->
                            dict_mem (row_of d color) k = true).
    { intros color. split; [apply NoDup_keys_row_of|].
      intros k Hk. apply row_of_derived. now apply str_in_In. }
    destruct Hin as [<-|[<-|[]]]; apply G.
Qed.

(** X4.  Every row [process_match] returns has pairwise distinct column
    names and holds the six columns [match], [alliance], [bot1], [bot2],
    [bot3] and [alliance_score], whatever the match lacks. *)
Theorem row_has_derived_columns (m : value) (rows : list dict) (row : dict) :
  process_match m = Ok rows -> In row rows ->
  NoDup (keys row)
  /\ forall k, In k derived_columns -> dict_mem row k = true.
Proof. apply row_columns. Qed.

Lemma row_has_derived_columns_witness :
  dict_mem scenario_blue_row "bot3" = true.
Proof.
  apply (row_has_derived_columns scenario_match
           [scenario_red_row; scenario_blue_row] scenario_blue_row).
  - reflexivity.
  - right; left; reflexivity.
  - cbn. tauto.
Defined.

Lemma not_kept_not_derived (k : string) :
  kept k = false ->
  str_in k ["alliance_score"; "bot3"; "bot2"; "bot1"; "alliance"] = false
  /\ String.eqb "match" k = false.
Proof.
  unfold kept. intros H. apply andb_false_iff in H.
  destruct H as [H|H]; apply negb_false_iff, str_in_In in H; cbn [In] in H;
    repeat (destruct H as [<-|H]; [split; reflexivity|]); destruct H.
Qed.

Lemma row_of_not_kept (d : dict) (s : value) (color k : string) :
  dict_get d "score_breakdown" = Some s -> kept k = false ->
  dict_mem (row_of d color) k = dict_mem (flat_sb_of s color) k.
Proof.
  intros Hs Hk. destruct (not_kept_not_derived k Hk) as [H1 H2].
  unfold row_of. rewrite Hs, dict_mem_update, base_row_mem, H1.
  unfold common_data_of. rewrite dict_mem_set, H2, common_fields_mem, Hk.
  reflexivity.
Qed.

(** X5.  The keys of [IGNORE_TOP_KEYS], [alliances] and [score_breakdown]
    are not copied from the match: a row has a column of such a name only
    when the flattened score breakdown of its colour has a field of that
    name. *)
Theorem ignored_keys_not_copied (d : dict) (s : value) (rows : list dict)
    (color : string) (row : dict) (k : string) :
  process_match (VDict d) = Ok rows -> row_for rows color = Some row ->
  dict_get d "score_breakdown" = Some s ->
  In k (IGNORE_TOP_KEYS ++ ["alliances"; "score_breakdown"])%list ->
  dict_mem row k = dict_mem (flat_sb_of s color) k.
Proof.
  intros H Hr Hs Hk.
  destruct (row_for_row_of d rows color row H Hr) as [_ ->].
  apply row_of_not_kept; [exact Hs|].
  unfold kept. apply in_app_or in Hk. apply andb_false_iff.
  destruct Hk as [Hk|Hk]; apply str_in_In in Hk; rewrite Hk; auto.
Qed.

Lemma ignored_keys_not_copied_witness :
  dict_mem scenario_red_row "comp_level" = false.
Proof.
  rewrite (ignored_keys_not_copied scenario_dict scenario_score_breakdown
             [scenario_red_row; scenario_blue_row] "red" scenario_red_row
             "comp_level" eq_refl eq_refl eq_refl).
  - reflexivity.
  - cbn. tauto.
Defined.

Lemma common_fields_get_from (items acc : dict) (k : string) :
  NoDup (keys items) ->
  dict_get
    (fold_left
       (fun common_data kv =>
          if negb (str_in (fst kv) IGNORE_TOP_KEYS)
             && negb (str_in (fst kv) ["alliances"; "score_breakdown"])
          then dict_set common_data (fst kv) (snd kv)
          else common_data)
       items acc) k
  = if kept k && dict_mem items k then dict_get items k else dict_get acc k.
Proof.
  revert acc. induction items as [|[k1 v1] items IH]; intros acc Hnd.
  - cbn [fold_left]. now rewrite andb_false_r.
  - cbn [keys map fst] in Hnd. apply NoDup_cons_iff in Hnd.
    destruct Hnd as [Hk1 Hnd].
    cbn [fold_left fst snd]. rewrite IH by assumption.
    fold (kept k1). rewrite dict_mem_cons. cbn [dict_get].
    destruct (String.eqb_spec k k1) as [->|Hne].
    + assert (M : dict_mem items k1 = false).
      { destruct (dict_mem items k1) eqn:M; [|reflexivity].
        apply dict_mem_keys in M. contradiction. }
      rewrite M, andb_false_r. cbn [orb]. rewrite andb_true_r.
      destruct (kept k1); [apply dict_get_set_same | reflexivity].
    + cbn [orb]. destruct (kept k && dict_mem items k); [reflexivity|].
      destruct (kept k1); [|reflexivity].
      apply dict_get_set_other. congruence.
Qed.

Lemma common_fields_get (d : dict) (k : string) :
  NoDup (keys d) -> kept k = true ->
  dict_get (common_fields d) k = dict_get d k.
Proof.
  intros Hnd Hk. unfold common_fields.
  rewrite common_fields_get_from by assumption. rewrite Hk. cbn [andb].
  unfold dict_mem. now destruct (dict_get d k).
Qed.

Lemma base_row_get_other (common_data : dict) (a : value) (color k : string) :
  str_in k ["alliance_score"; "bot3"; "bot2"; "bot1"; "alliance"] = false ->
  dict_get (base_row common_data a color) k = dict_get common_data k.
Proof.
  unfold str_in. cbn [existsb]. intros H.
  repeat (apply orb_false_iff in H; destruct H as [? H]).
  unfold base_row. rewrite !dict_get_set.
  rewrite !(String.eqb_sym _ k).
  repeat match goal with E : String.eqb k _ = false |- _ => rewrite E; clear E end.
  reflexivity.
Qed.

(** X6.  Every other top-level key of the match is copied as it is: for a
    key outside the ignored keys and outside the six derived columns, a row
    holds the match's own value (or lacks the column when the match lacks
    the key), unless the flattened score breakdown of the row's colour has a
    field of that name. *)
Theorem top_level_keys_copied (d : dict) (s : value) (rows : list dict)
    (color : string) (row : dict) (k : string) :
  NoDup (keys d) ->
  process_match (VDict d) = Ok rows -> row_for rows color = Some row ->
  dict_get d "score_breakdown" = Some s ->
  kept k = true -> str_in k derived_columns = false ->
  dict_mem (flat_sb_of s color) k = false ->
  dict_get row k = dict_get d k.
Proof.
  intros Hnd H Hr Hs Hk Hd Hf.
  destruct (row_for_row_of d rows color row H Hr) as [_ ->].
  unfold row_of. rewrite Hs.
  rewrite dict_get_update by apply flat_sb_of_NoDup.
  unfold dict_mem in Hf.
  destruct (dict_get (flat_sb_of s color) k); [discriminate|].
  unfold derived_columns, str_in in Hd. cbn [existsb] in Hd.
  apply orb_false_iff in Hd. destruct Hd as [Hm Hd].
  rewrite base_row_get_other.
  - unfold common_data_of. rewrite dict_get_set_other.
    + now apply common_fields_get.
    + intros <-. discriminate.
  - unfold str_in. cbn [existsb].
    repeat (apply orb_false_iff in Hd; destruct Hd as [? Hd]).
    repeat match goal with E : String.eqb k _ = false |- _ => rewrite E; clear E end.
    reflexivity.
Qed.

Lemma top_level_keys_copied_witness :
  dict_get scenario_blue_row "winning_alliance" = Some (VStr "red").
Proof.
  rewrite (top_level_keys_copied scenario_dict scenario_score_breakdown
             [scenario_red_row; scenario_blue_row] "blue" scenario_blue_row
             "winning_alliance").
  - reflexivity.
  - cbn. repeat constructor; cbn; intuition discriminate.
  - reflexivity.
  - reflexivity.
  - reflexivity.
  - reflexivity.
  - reflexivity.
  - reflexivity.
Defined.

(** ** The rows of a match: their values *)

Lemma row_for_color (rows : list dict) (color : string) (row : dict) :
  row_for rows color = Some row -> color = "red" \/ color = "blue".
Proof.
  unfold row_for.
  destruct (String.eqb_spec color "red"); [auto|].
  destruct (String.eqb_spec color "blue"); [auto | discriminate].
Qed.

Lemma base_row_well_shaped (d : dict) (common_data : dict) (color : string) :
  well_shaped d = true -> color = "red" \/ color = "blue" ->
  base_row common_data
    (match dict_get d "alliances" with Some x => x | None => VNone end) color
  = dict_set
      (dict_set
         (dict_set
            (dict_set (dict_set common_data "alliance" (VStr color))
               "bot1" (bot (team_keys_of d color) 0))
            "bot2" (bot (team_keys_of d color) 1))
         "bot3" (bot (team_keys_of d color) 2))
      "alliance_score" (field_or (alliance_data_of d color) "score" VNone).
Proof.
  intros W Hc. unfold well_shaped in W.
  unfold base_row, team_keys_of, alliance_data_of, field_or.
  destruct (dict_get d "alliances") as [a|]; [|discriminate].
  destruct (dict_get d "score_breakdown") as [s|]; [|discriminate].
  repeat (apply andb_true_iff in W; destruct W as [W ?]).
  assert (Ha : entry_ok is_dict a color = true) by (destruct Hc; now subst).
  unfold entry_ok in Ha. destruct a as [| | | | | |a]; try discriminate.
  cbn [py_get]. destruct (dict_get a color) as [x|].
  - destruct x; try discriminate. reflexivity.
  - reflexivity.
Qed.

(** X7.  The six derived columns hold what lines 110-138 compute (the
    match identifier, the colour, the three team numbers and the alliance's
    score, null when absent), unless the flattened score breakdown of the
    row's colour has a field of that name. *)
Theorem derived_columns_values (d : dict) (s : value) (rows : list dict)
    (color : string) (row : dict) (k : string) :
  process_match (VDict d) = Ok rows -> row_for rows color = Some row ->
  dict_get d "score_breakdown" = Some s ->
  In k derived_columns ->
  dict_mem (flat_sb_of s color) k = false ->
  dict_get row k = derived_value d color k.
Proof.
  intros H Hr Hs Hk Hf.
  pose proof (row_for_color rows color row Hr) as Hc.
  destruct (row_for_row_of d rows color row H Hr) as [W ->].
  unfold row_of. rewrite Hs.
  rewrite dict_get_update by apply flat_sb_of_NoDup.
  unfold dict_mem in Hf.
  destruct (dict_get (flat_sb_of s color) k); [discriminate|].
  rewrite (base_row_well_shaped d _ color W Hc).
  unfold common_data_of, derived_value, field_or.
  cbn [In derived_columns] in Hk.
  repeat (destruct Hk as [<-|Hk]; [rewrite !dict_get_set; reflexivity|]).
  destruct Hk.
Qed.

Lemma derived_columns_values_witness :
  dict_get scenario_red_row "match" = Some (VStr "qm 5")
  /\ dict_get scenario_blue_row "bot2" = Some VNone.
Proof.
  split.
  - exact (derived_columns_values scenario_dict scenario_score_breakdown
             [scenario_red_row; scenario_blue_row] "red" scenario_red_row
             "match" eq_refl eq_refl eq_refl (or_introl eq_refl) eq_refl).
  - exact (derived_columns_values scenario_dict scenario_score_breakdown
             [scenario_red_row; scenario_blue_row] "blue" scenario_blue_row
             "bot2" eq_refl eq_refl eq_refl
             (or_intror (or_intror (or_intror (or_introl eq_refl)))) eq_refl).
Defined.

(** ** Team numbers *)

Ltac read_digit IH a d n k :=
  change (read_digits (10 * Zpos a + Zpos k) (S n) true
            (chars (NilEmpty.string_of_uint d))
          = Some (Zpos (Pos.of_uint_acc d (Pos.add k (Pos.mul 10 a))),
                  n + S (Decimal.nb_digits d)));
  replace (10 * Zpos a + Zpos k)%Z with (Zpos (Pos.add k (Pos.mul 10 a)))
    by lia;
  rewrite IH; now rewrite Nat.add_succ_r.

Lemma read_digits_after (d : Decimal.uint) :
  forall a n,
    read_digits (Zpos a) n true (chars (NilEmpty.string_of_uint d))
    = Some (Zpos (Pos.of_uint_acc d a), n + Decimal.nb_digits d).
Proof.
  induction d as [|d IH|d IH|d IH|d IH|d IH|d IH|d IH|d IH|d IH|d IH];
    intros a n;
    cbn [NilEmpty.string_of_uint Pos.of_uint_acc Decimal.nb_digits].
  - now rewrite Nat.add_0_r.
  - change (read_digits (10 * Zpos a + 0) (S n) true
              (chars (NilEmpty.string_of_uint d))
            = Some (Zpos (Pos.of_uint_acc d (Pos.mul 10 a)),
                    n + S (Decimal.nb_digits d))).
    replace (10 * Zpos a + 0)%Z with (Zpos (Pos.mul 10 a)) by lia.
    rewrite IH. now rewrite Nat.add_succ_r.
  - read_digit IH a d n 1%positive.
  - read_digit IH a d n 2%positive.
  - read_digit IH a d n 3%positive.
  - read_digit IH a d n 4%positive.
  - read_digit IH a d n 5%positive.
  - read_digit IH a d n 6%positive.
  - read_digit IH a d n 7%positive.
  - read_digit IH a d n 8%positive.
  - read_digit IH a d n 9%positive.
Qed.

Lemma read_digits_uint (d : Decimal.uint) :
  forall n b,
    d <> Decimal.Nil \/ b = true ->
    read_digits 0 n b (chars (NilEmpty.string_of_uint d))
    = Some (Z.of_N (Pos.of_uint d), n + Decimal.nb_digits d).
Proof.
  induction d as [|d IH|d IH|d IH|d IH|d IH|d IH|d IH|d IH|d IH|d IH];
    intros n b Hb;
    cbn [NilEmpty.string_of_uint Pos.of_uint Decimal.nb_digits Z.of_N].
  - destruct Hb as [Hb | ->]; [congruence|]. now rewrite Nat.add_0_r.
  - change (read_digits 0 (S n) true (chars (NilEmpty.string_of_uint d))
            = Some (Z.of_N (Pos.of_uint d), n + S (Decimal.nb_digits d))).
    rewrite IH by now right. now rewrite Nat.add_succ_r.
  - change (read_digits 1 (S n) true (chars (NilEmpty.string_of_uint d))
            = Some (Zpos (Pos.of_uint_acc d 1), n + S (Decimal.nb_digits d))).
    rewrite read_digits_after. now rewrite Nat.add_succ_r.
  - change (read_digits 2 (S n) true (chars (NilEmpty.string_of_uint d))
            = Some (Zpos (Pos.of_uint_acc d 2), n + S (Decimal.nb_digits d))).
    rewrite read_digits_after. now rewrite Nat.add_succ_r.
  - change (read_digits 3 (S n) true (chars (NilEmpty.string_of_uint d))
            = Some (Zpos (Pos.of_uint_acc d 3), n + S (Decimal.nb_digits d))).
    rewrite read_digits_after. now rewrite Nat.add_succ_r.
  - change (read_digits 4 (S n) true (chars (NilEmpty.string_of_uint d))
            = Some (Zpos (Pos.of_uint_acc d 4), n + S (Decimal.nb_digits d))).
    rewrite read_digits_after. now rewrite Nat.add_succ_r.
  - change (read_digits 5 (S n) true (chars (NilEmpty.string_of_uint d))
            = Some (Zpos (Pos.of_uint_acc d 5), n + S (Decimal.nb_digits d))).
    rewrite read_digits_after. now rewrite Nat.add_succ_r.
  - change (read_digits 6 (S n) true (chars (NilEmpty.string_of_uint d))
            = Some (Zpos (Pos.of_uint_acc d 6), n + S (Decimal.nb_digits d))).
    rewrite read_digits_after. now rewrite Nat.add_succ_r.
  - change (read_digits 7 (S n) true (chars (NilEmpty.string_of_uint d))
            = Some (Zpos (Pos.of_uint_acc d 7), n + S (Decimal.nb_digits d))).
    rewrite read_digits_after. now rewrite Nat.add_succ_r.
  - change (read_digits 8 (S n) true (chars (NilEmpty.string_of_uint d))
            = Some (Zpos (Pos.of_uint_acc d 8), n + S (Decimal.nb_digits d))).
    rewrite read_digits_after. now rewrite Nat.add_succ_r.
  - change (read_digits 9 (S n) true (chars (NilEmpty.string_of_uint d))
            = Some (Zpos (Pos.of_uint_acc d 9), n + S (Decimal.nb_digits d))).
    rewrite read_digits_after. now rewrite Nat.add_succ_r.
Qed.

Lemma uint_chars_digits (d : Decimal.uint) :
  Forall (fun c => is_digit c = true) (chars (NilEmpty.string_of_uint d)).
Proof.
  induction d; cbn [NilEmpty.string_of_uint chars list_ascii_of_string];
    constructor; solve [reflexivity | assumption].
Qed.

Lemma uint_string_length (d : Decimal.uint) :
  String.length (NilEmpty.string_of_uint d) = Decimal.nb_digits d.
Proof.
  induction d; cbn [NilEmpty.string_of_uint String.length Decimal.nb_digits];
    congruence.
Qed.

Lemma digit_not_space (c : ascii) : is_digit c = true -> is_space c = false.
Proof.
  unfold is_digit, is_space. intros H.
  apply andb_true_iff in H. destruct H as [H1 H2].
  apply Nat.leb_le in H1, H2.
  repeat (apply orb_false_iff; split);
    try (apply andb_false_iff; solve [left; apply Nat.leb_gt; lia
                                     | right; apply Nat.leb_gt; lia]);
    apply Nat.eqb_neq; lia.
Qed.

Lemma lstrip_digits (l : list ascii) :
  Forall (fun c => is_digit c = true) l -> lstrip l = l.
Proof.
  destruct 1 as [|c l Hc _]; [reflexivity|].
  cbn [lstrip]. now rewrite (digit_not_space c Hc).
Qed.

Lemma strip_digits (l : list ascii) :
  Forall (fun c => is_digit c = true) l -> strip l = l.
Proof.
  intros H. unfold strip. rewrite (lstrip_digits l H).
  rewrite lstrip_digits by now apply Forall_rev.
  apply rev_involutive.
Qed.

(** [int(s)] reads back the decimal text of a natural number. *)
Lemma py_int_uint (d : Decimal.uint) :
  d <> Decimal.Nil -> Decimal.nb_digits d <= int_max_str_digits ->
  py_int (NilEmpty.string_of_uint d) = Ok (Z.of_N (Pos.of_uint d)).
Proof.
  intros Hd Hn. unfold py_int.
  pose proof (uint_chars_digits d) as Hdig.
  rewrite (strip_digits _ Hdig).
  destruct (chars (NilEmpty.string_of_uint d)) as [|c t] eqn:E.
  - destruct d; solve [congruence | discriminate].
  - assert (Hc : is_digit c = true) by now inversion Hdig.
    destruct (Ascii.eqb_spec c "-") as [->|_];
      [vm_compute in Hc; discriminate|].
    destruct (Ascii.eqb_spec c "+") as [->|_];
      [vm_compute in Hc; discriminate|].
    rewrite <- E, read_digits_uint by now left.
    cbn [Nat.add]. apply Nat.leb_le in Hn. now rewrite Hn.
Qed.

Lemma str_of_Z_uint (n : Z) :
  (0 <= n)%Z ->
  exists d, str_of_Z n = NilEmpty.string_of_uint d
            /\ d <> Decimal.Nil /\ Z.of_N (Pos.of_uint d) = n.
Proof.
  intros Hn. unfold str_of_Z. destruct n as [|p|p]; [| |lia].
  - exists (Decimal.D0 Decimal.Nil). repeat split. discriminate.
  - exists (Pos.to_uint p). cbn [Z.to_int NilZero.string_of_int].
    pose proof (DecimalPos.Unsigned.to_uint_nonnil p) as Hp.
    split; [|split; [exact Hp|]].
    + unfold NilZero.string_of_uint. destruct (Pos.to_uint p); congruence.
    + now rewrite DecimalPos.Unsigned.of_to.
Qed.

Lemma startswith_frc_other (c : ascii) (s : string) :
  c <> "f"%char -> startswith "frc" (String c s) = false.
Proof.
  intros Hc. unfold startswith. cbn [String.prefix].
  destruct (ascii_dec "f" c) as [<-|_]; [congruence | reflexivity].
Qed.

Lemma replace_frc_digits (s : string) :
  Forall (fun c => is_digit c = true) (chars s) ->
  replace_from "frc" EmptyString 0 s = s.
Proof.
  induction s as [|c s IH]; [reflexivity|].
  cbn [chars list_ascii_of_string]. intros H.
  inversion H as [|? ? Hc Hs]; subst.
  cbn [replace_from]. rewrite startswith_frc_other.
  - now rewrite IH.
  - intros ->. vm_compute in Hc. discriminate.
Qed.

Lemma startswith_frc (s : string) : startswith "frc" ("frc" ++ s) = true.
Proof.
  unfold startswith. cbn [append String.prefix].
  destruct (ascii_dec "f" "f") as [_|N]; [|congruence].
  destruct (ascii_dec "r" "r") as [_|N]; [|congruence].
  destruct (ascii_dec "c" "c") as [_|N]; [|congruence].
  now destruct s.
Qed.

Lemma replace_frc_prefix (s : string) :
  replace_from "frc" EmptyString 0 ("frc" ++ s)
  = replace_from "frc" EmptyString 0 s.
Proof.
  pose proof (startswith_frc s) as H.
  change ("frc" ++ s) with (String "f" (String "r" (String "c" s))) in *.
  change (replace_from "frc" EmptyString 0
            (String "f" (String "r" (String "c" s))))
    with (if startswith "frc" (String "f" (String "r" (String "c" s)))
          then EmptyString ++ replace_from "frc" EmptyString 0 s
          else String "f"
                 (replace_from "frc" EmptyString 0
                    (String "r" (String "c" s)))).
  now rewrite H.
Qed.

(** X8.  A team key [frcN], N a natural number in decimal, gives the team
    number N: whatever the slot, [bot] of the list is the integer N (the
    text of N being within [int_max_str_digits] digits). *)
Theorem team_number_extracted (team_keys : list value) (i : nat) (n : Z) :
  (0 <= n)%Z ->
  String.length (str_of_Z n) <= int_max_str_digits ->
  nth_error team_keys i = Some (VStr ("frc" ++ str_of_Z n)) ->
  bot (VList team_keys) i = VInt n.
Proof.
  intros Hn Hlen Hi.
  destruct (str_of_Z_uint n Hn) as (d & Hs & Hd & Hv).
  unfold bot. cbn [py_len bind].
  assert (Hlt : (i <? List.length team_keys) = true).
  { apply Nat.ltb_lt. apply nth_error_Some. congruence. }
  rewrite Hlt. cbn [py_index]. rewrite Hi. cbn [bind py_replace].
  unfold str_replace.
  rewrite replace_frc_prefix.
  rewrite Hs, replace_frc_digits by apply uint_chars_digits.
  rewrite Hs, uint_string_length in Hlen.
  rewrite (py_int_uint d Hd Hlen). cbn [bind try_except]. now rewrite Hv.
Qed.

Lemma team_number_extracted_witness :
  bot (VList [VStr "frc254"; VStr "frc1678"; VStr "frc118"]) 1 = VInt 1678.
Proof.
  apply (team_number_extracted
           [VStr "frc254"; VStr "frc1678"; VStr "frc118"] 1 1678).
  - lia.
  - vm_compute. lia.
  - reflexivity.
Defined.

(** ** The event fetch adapter: any number of failing matches *)

Lemma fetch_event_matches_from_empty (get : transport) (event_key : value)
    (error_list : list error_record) :
  fetch_event_matches get event_key error_list
  = (fst (fetch_event_matches get event_key []),
     (error_list ++ snd (fetch_event_matches get event_key []))%list).
Proof.
  unfold fetch_event_matches.
  destruct (status_code (get (matches_url event_key)) =? 200)%Z;
    [|reflexivity].
  destruct (json (get (matches_url event_key))) as [body|e]; [|reflexivity].
  destruct (py_iter body) as [ms|e]; [|now rewrite app_nil_r].
  rewrite !process_matches_spec. reflexivity.
Qed.

(** X9.  [fetch_event_matches] only appends to [error_list]: the value it
    returns does not depend on the errors collected before, which it leaves
    in place and in order, followed by the records it would add to an
    empty list. *)
Theorem fetch_event_matches_appends (get : transport) (event_key : value)
    (error_list : list error_record) :
  fetch_event_matches get event_key error_list
  = (fst (fetch_event_matches get event_key []),
     (error_list ++ snd (fetch_event_matches get event_key []))%list).
Proof. apply fetch_event_matches_from_empty. Qed.

Lemma rows_of_match_length (m : value) :
  List.length (rows_of_match m) = if yields_rows m then 2 else 0.
Proof.
  unfold rows_of_match, yields_rows.
  destruct (process_match_cases m) as [E|[(d & _ & _ & E)|(d & _ & _ & E)]];
    now rewrite E.
Qed.

Lemma rows_of_matches_length (ms : list value) :
  List.length (rows_of_matches ms) = 2 * List.length (filter yields_rows ms).
Proof.
  unfold rows_of_matches.
  induction ms as [|m ms IH]; [reflexivity|].
  cbn [flat_map filter]. rewrite length_app, IH, rows_of_match_length.
  destruct (yields_rows m); cbn [List.length]; lia.
Qed.

Lemma errors_from_length (event_key url : string) (ms : list value) :
  forall i,
    List.length (errors_from event_key url i ms)
    = List.length (filter raises ms).
Proof.
  induction ms as [|m ms IH]; intros i; [reflexivity|].
  cbn [errors_from filter]. unfold raises at 1.
  destruct (process_match m); cbn [List.length]; now rewrite IH.
Qed.

(** X10.  For a fetched list of matches, whatever the number of matches on
    which [process_match] raises: the rows returned are those of the
    matches that return, in order, two for each match that yields rows, and
    one error record is appended for each match that raises. *)
Theorem fetch_counts (get : transport) (event_key : value)
    (error_list : list error_record) (ms : list value) :
  status_code (get (matches_url event_key)) = 200%Z ->
  json (get (matches_url event_key)) = Ok (VList ms) ->
  exists added,
    fetch_event_matches get event_key error_list
    = (Ok (rows_of_matches ms), (error_list ++ added)%list)
    /\ List.length (rows_of_matches ms)
       = 2 * List.length (filter yields_rows ms)
    /\ List.length added = List.length (filter raises ms).
Proof.
  intros Hst Hjs.
  exists (errors_from (py_str event_key) (matches_url event_key) 0 ms).
  split; [|split].
  - unfold fetch_event_matches. rewrite Hst, Hjs. cbn [Z.eqb Pos.eqb py_iter].
    now rewrite process_matches_spec.
  - apply rows_of_matches_length.
  - apply errors_from_length.
Qed.

Lemma fetch_counts_witness :
  exists added,
    fetch_event_matches
      (serve (VList [VInt 1; scenario_match; VNone; VDict []])) (VStr "2025ex")
      []
    = (Ok [scenario_red_row; scenario_blue_row], added)
    /\ List.length added = 2.
Proof.
  destruct (fetch_counts
              (serve (VList [VInt 1; scenario_match; VNone; VDict []]))
              (VStr "2025ex") [] [VInt 1; scenario_match; VNone; VDict []]
              eq_refl eq_refl) as (added & E & _ & L).
  exists added. split; [exact E | exact L].
Defined.

Lemma errors_from_sound (event_key url : string) (ms : list value)
    (record : error_record) :
  forall i0,
    In record (errors_from event_key url i0 ms) ->
    exists j m e,
      record = MatchError (i0 + j) event_key m e url
      /\ nth_error ms j = Some m /\ process_match m = Raise e.
Proof.
  induction ms as [|m ms IH]; intros i0 H; [destruct H|].
  cbn [errors_from] in H.
  assert (Tail : In record (errors_from event_key url (S i0) ms) ->
                 exists j m' e,
                   record = MatchError (i0 + j) event_key m' e url
                   /\ nth_error (m :: ms) j = Some m'
                   /\ process_match m' = Raise e).
  { intros Hin. destruct (IH (S i0) Hin) as (j & m' & e & -> & Hn & Hp).
    exists (S j), m', e. rewrite Nat.add_succ_r. auto. }
  destruct (process_match m) as [rows|e] eqn:E; [auto|].
  destruct H as [<-|H]; [|auto].
  exists 0, m, e. rewrite Nat.add_0_r. auto.
Qed.

(** X11.  Every record [fetch_event_matches] appends for a fetched list
    names a match on which [process_match] does raise: it holds the index
    of that match in the list, the match itself and the exception raised. *)
Theorem error_records_name_matches (get : transport) (event_key : value)
    (ms : list value) (record : error_record) :
  status_code (get (matches_url event_key)) = 200%Z ->
  json (get (matches_url event_key)) = Ok (VList ms) ->
  In record (snd (fetch_event_matches get event_key [])) ->
  exists i m e,
    record = MatchError i (py_str event_key) m e (matches_url event_key)
    /\ nth_error ms i = Some m /\ process_match m = Raise e.
Proof.
  intros Hst Hjs. unfold fetch_event_matches.
  rewrite Hst, Hjs. cbn [Z.eqb Pos.eqb py_iter].
  rewrite process_matches_spec. cbn [snd app]. intros H.
  destruct (errors_from_sound _ _ ms record 0 H) as (j & m & e & Hr & Hn & Hp).
  exists j, m, e. auto.
Qed.

Lemma error_records_name_matches_witness :
  exists i m e,
    MatchError 2 "2025ex" VNone AttributeError (matches_url (VStr "2025ex"))
    = MatchError i "2025ex" m e (matches_url (VStr "2025ex"))
    /\ nth_error [VInt 1; scenario_match; VNone; VDict []] i = Some m
    /\ process_match m = Raise e.
Proof.
  apply (error_records_name_matches
           (serve (VList [VInt 1; scenario_match; VNone; VDict []]))
           (VStr "2025ex") [VInt 1; scenario_match; VNone; VDict []]).
  - reflexivity.
  - reflexivity.
  - right; left; reflexivity.
Defined.



(** ** Column order: the general case *)

Lemma list_remove_absent (x : string) (l : list string) :
  str_in x l = false -> list_remove x l = l.
Proof.
  unfold str_in. induction l as [|c l IH]; cbn [existsb list_remove];
    [reflexivity|].
  intros H. apply orb_false_iff in H. destruct H as [Hc Hl].
  rewrite Hc. now rewrite IH.
Qed.

Lemma pin_column_step (desired cols : list string) (p : string) :
  pin_column (desired, cols) p
  = ((desired ++ (if str_in p cols then [p] else []))%list,
     list_remove p cols).
Proof.
  unfold pin_column. destruct (str_in p cols) eqn:E; [reflexivity|].
  now rewrite app_nil_r, list_remove_absent.
Qed.

(** The order [reorder_columns] computes, in closed form. *)
Lemma new_order_closed (cols : list string) :
  new_order cols
  = (filter (fun p => str_in p cols) pinned
     ++ list_remove "winning_alliance"
          (list_remove "match" (list_remove "event_key" cols)))%list.
Proof.
  unfold new_order. cbn [fold_left]. rewrite !pin_column_step.
  rewrite (str_in_list_remove "match" "event_key") by discriminate.
  rewrite (str_in_list_remove "winning_alliance" "match") by discriminate.
  rewrite (str_in_list_remove "winning_alliance" "event_key") by discriminate.
  unfold pinned. cbn [filter app].
  destruct (str_in "event_key" cols), (str_in "match" cols),
    (str_in "winning_alliance" cols); reflexivity.
Qed.

Lemma list_remove_perm (p : string) (cols : list string) :
  str_in p cols = true -> Permutation (p :: list_remove p cols) cols.
Proof.
  unfold str_in. induction cols as [|c cols IH]; cbn [existsb list_remove];
    [discriminate|].
  destruct (String.eqb_spec p c) as [->|Hne]; cbn [orb]; intros H.
  - apply Permutation_refl.
  - eapply perm_trans; [apply perm_swap|].
    apply perm_skip. now apply IH.
Qed.

Lemma pin_columns_perm (labels : list string) :
  forall desired cols,
    Permutation
      (fst (fold_left pin_column labels (desired, cols))
       ++ snd (fold_left pin_column labels (desired, cols)))%list
      (desired ++ cols)%list.
Proof.
  induction labels as [|p labels IH]; intros desired cols; cbn [fold_left].
  - apply Permutation_refl.
  - rewrite pin_column_step. eapply perm_trans; [apply IH|].
    destruct (str_in p cols) eqn:E.
    + rewrite <- app_assoc. apply Permutation_app_head.
      cbn [app]. now apply list_remove_perm.
    + rewrite app_nil_r, list_remove_absent by assumption.
      apply Permutation_refl.
Qed.

(** X13.  On a frame with distinct labels [reorder_columns] only
    rearranges: the new column order is a permutation of the old one (no
    column is lost, added or repeated), and the rows are the same. *)
Theorem reorder_columns_permutes (df : DataFrame) :
  NoDup (columns df) ->
  Permutation (columns (reorder_columns df)) (columns df)
  /\ NoDup (columns (reorder_columns df))
  /\ rows (reorder_columns df) = rows df.
Proof.
  intros Hnd.
  assert (P : Permutation (columns (reorder_columns df)) (columns df)).
  { unfold reorder_columns, new_order. cbn [columns].
    pose proof (pin_columns_perm ["event_key"; "match"; "winning_alliance"]
                  [] (columns df)) as H.
    destruct (fold_left pin_column ["event_key"; "match"; "winning_alliance"]
                ([], columns df)) as [desired cols'].
    exact H. }
  split; [exact P|]. split; [|reflexivity].
  apply (Permutation_NoDup (Permutation_sym P) Hnd).
Qed.

Lemma reorder_columns_permutes_witness :
  Permutation (columns (reorder_columns existing_AB)) stored_columns
  /\ NoDup (columns (reorder_columns existing_AB))
  /\ rows (reorder_columns existing_AB) = rows existing_AB.
Proof.
  apply (reorder_columns_permutes existing_AB).
  cbn. repeat constructor; cbn; intuition discriminate.
Defined.

Lemma str_in_perm (x : string) (l l' : list string) :
  Permutation l l' -> str_in x l = str_in x l'.
Proof.
  intros H. apply eq_true_iff_eq. rewrite !str_in_In.
  split; apply Permutation_in; [assumption | now apply Permutation_sym].
Qed.

Lemma new_order_perm (cols : list string) : Permutation (new_order cols) cols.
Proof.
  unfold new_order.
  pose proof (pin_columns_perm ["event_key"; "match"; "winning_alliance"]
                [] cols) as H.
  destruct (fold_left pin_column ["event_key"; "match"; "winning_alliance"]
              ([], cols)) as [desired cols'].
  exact H.
Qed.

Lemma removes_pinned_front (cols : list string) :
  let rest :=
    list_remove "winning_alliance"
      (list_remove "match" (list_remove "event_key" cols)) in
  list_remove "winning_alliance"
    (list_remove "match"
       (list_remove "event_key"
          (filter (fun p => str_in p cols) pinned ++ rest)%list))
  = rest.
Proof.
  intros rest.
  assert (A : forall p, In p pinned -> str_in p cols = false ->
                        list_remove p rest = rest).
  { intros p Hp Hc. apply list_remove_absent. subst rest.
    cbn [In pinned] in Hp.
    destruct Hp as [<-|[<-|[<-|[]]]].
    - rewrite (str_in_list_remove "event_key" "winning_alliance")
        by discriminate.
      rewrite (str_in_list_remove "event_key" "match") by discriminate.
      now rewrite (list_remove_absent "event_key" cols Hc).
    - rewrite (str_in_list_remove "match" "winning_alliance") by discriminate.
      rewrite (list_remove_absent "match") ;
        [now rewrite str_in_list_remove by discriminate|].
      now rewrite str_in_list_remove by discriminate.
    - rewrite (list_remove_absent "winning_alliance"); [|].
      + now rewrite !str_in_list_remove by discriminate.
      + now rewrite !str_in_list_remove by discriminate. }
  pose proof (A "event_key" (or_introl eq_refl)) as A1.
  pose proof (A "match" (or_intror (or_introl eq_refl))) as A2.
  pose proof (A "winning_alliance"
                (or_intror (or_intror (or_introl eq_refl)))) as A3.
  clearbody rest. unfold pinned. cbn [filter].
  destruct (str_in "event_key" cols), (str_in "match" cols),
    (str_in "winning_alliance" cols);
    cbn [app list_remove String.eqb Ascii.eqb Bool.eqb];
    rewrite ?A1, ?A2, ?A3 by reflexivity; reflexivity.
Qed.

Lemma new_order_twice (cols : list string) :
  new_order (new_order cols) = new_order cols.
Proof.
  rewrite (new_order_closed (new_order cols)).
  rewrite (filter_ext (fun p => str_in p (new_order cols))
             (fun p => str_in p cols))
    by (intros p; apply str_in_perm, new_order_perm).
  rewrite (new_order_closed cols) at 1.
  rewrite (removes_pinned_front cols).
  symmetry. apply new_order_closed.
Qed.

(** X14.  On a frame with distinct labels [reorder_columns] is idempotent:
    reordering a frame that is already reordered changes nothing. *)
Theorem reorder_columns_idempotent (df : DataFrame) :
  NoDup (columns df) ->
  reorder_columns (reorder_columns df) = reorder_columns df.
Proof.
  intros _. unfold reorder_columns. cbn [columns rows]. f_equal.
  apply new_order_twice.
Qed.

Lemma reorder_columns_idempotent_witness :
  reorder_columns (reorder_columns existing_AB) = reorder_columns existing_AB.
Proof.
  apply (reorder_columns_idempotent existing_AB).
  cbn. repeat constructor; cbn; intuition discriminate.
Defined.

(** X15.  With distinct labels, the new order is the pinned labels that
    are present, in the order [event_key], [match], [winning_alliance],
    followed by all other columns in their old order: a pinned label that is
    absent is passed over, the others still come first. *)
Theorem reorder_columns_order (df : DataFrame) :
  NoDup (columns df) ->
  columns (reorder_columns df)
  = (filter (fun p => str_in p (columns df)) pinned
     ++ filter other_column (columns df))%list.
Proof.
  intros Hnd. unfold reorder_columns. cbn [columns].
  rewrite new_order_closed. f_equal.
  rewrite (list_remove_NoDup "event_key") by assumption.
  rewrite (list_remove_NoDup "match") by now apply NoDup_filter.
  rewrite (list_remove_NoDup "winning_alliance")
    by now do 2 apply NoDup_filter.
  apply filter_pinned.
Qed.

Lemma reorder_columns_order_witness :
  columns
    (reorder_columns
       {| columns := ["alliance"; "match"; "bot1"; "event_key"]; rows := [] |})
  = ["event_key"; "match"; "alliance"; "bot1"].
Proof.
  apply (reorder_columns_order
           {| columns := ["alliance"; "match"; "bot1"; "event_key"];
              rows := [] |}).
  cbn. repeat constructor; cbn; intuition discriminate.
Defined.

(** ** Frames built from rows *)

Lemma In_union_columns (more cols : list string) (x : string) :
  In x (union_columns cols more) <-> In x cols \/ In x more.
Proof.
  unfold union_columns. revert cols.
  induction more as [|c more IH]; intros cols; cbn [fold_left].
  - cbn [In]. tauto.
  - rewrite IH. destruct (str_in c cols) eqn:E.
    + apply str_in_In in E. cbn [In]. split; [tauto|].
      intros [H|[<-|H]]; auto.
    + rewrite in_app_iff. cbn [In]. tauto.
Qed.

Lemma NoDup_union_columns (more cols : list string) :
  NoDup cols -> NoDup (union_columns cols more).
Proof.
  unfold union_columns. revert cols.
  induction more as [|c more IH]; intros cols H; cbn [fold_left];
    [assumption|].
  apply IH. destruct (str_in c cols) eqn:E; [assumption|].
  apply NoDup_app; [assumption | repeat constructor; cbn; tauto |].
  intros x Hx [<-|[]]. apply str_in_In in Hx. congruence.
Qed.

Lemma union_columns_known (more cols : list string) :
  (forall x, In x more -> In x cols) -> union_columns cols more = cols.
Proof.
  unfold union_columns. revert cols.
  induction more as [|c more IH]; intros cols H; cbn [fold_left];
    [reflexivity|].
  assert (E : str_in c cols = true) by (apply str_in_In, H; now left).
  rewrite E. apply IH. intros x Hx. apply H. now right.
Qed.

Lemma union_columns_extends (more cols : list string) :
  exists added, union_columns cols more = (cols ++ added)%list.
Proof.
  unfold union_columns. revert cols.
  induction more as [|c more IH]; intros cols; cbn [fold_left].
  - exists []. now rewrite app_nil_r.
  - destruct (str_in c cols).
    + apply IH.
    + destruct (IH (cols ++ [c])%list) as [added E].
      exists (c :: added). rewrite E, <- app_assoc. reflexivity.
Qed.

Lemma union_columns_fresh (more cols : list string) :
  NoDup more -> (forall x, In x more -> ~ In x cols) ->
  union_columns cols more = (cols ++ more)%list.
Proof.
  unfold union_columns. revert cols.
  induction more as [|c more IH]; intros cols Hnd Hd; cbn [fold_left].
  - now rewrite app_nil_r.
  - apply NoDup_cons_iff in Hnd. destruct Hnd as [Hc Hnd].
    destruct (str_in c cols) eqn:E.
    + apply str_in_In in E. exfalso. apply (Hd c); [now left | exact E].
    + rewrite IH; [now rewrite <- app_assoc | assumption |].
      intros x Hx Hin. apply in_app_or in Hin. destruct Hin as [Hin|[<-|[]]].
      * apply (Hd x); [now right | exact Hin].
      * contradiction.
Qed.

Lemma columns_of_rows_from (rs : list dict) :
  forall acc,
    NoDup acc ->
    NoDup (fold_left (fun cols r => union_columns cols (keys r)) rs acc)
    /\ (forall k,
          In k (fold_left (fun cols r => union_columns cols (keys r)) rs acc)
          <-> In k acc \/ exists r, In r rs /\ In k (keys r))
    /\ exists added,
         fold_left (fun cols r => union_columns cols (keys r)) rs acc
         = (acc ++ added)%list.
Proof.
  induction rs as [|r rs IH]; intros acc Hacc; cbn [fold_left].
  - split; [assumption|]. split.
    + intros k. split; [auto | intros [H|(r & [] & _)]; exact H].
    + exists []. now rewrite app_nil_r.
  - destruct (IH (union_columns acc (keys r))
                (NoDup_union_columns (keys r) acc Hacc)) as (H1 & H2 & H3).
    split; [exact H1|]. split.
    + intros k. rewrite H2, In_union_columns. split.
      * intros [[H|H]|(r' & Hr' & Hk)]; [auto | |].
        -- right. exists r. split; [now left | exact H].
        -- right. exists r'. split; [now right | exact Hk].
      * intros [H|(r' & [<-|Hr'] & Hk)]; [auto | auto |].
        right. exists r'. auto.
    + destruct H3 as [added E].
      destruct (union_columns_extends (keys r) acc) as [added' E'].
      exists (added' ++ added)%list. rewrite E, E', <- app_assoc. reflexivity.
Qed.

(** X16.  The frame [pd.DataFrame(all_rows)] has the rows given, distinct
    labels, and as labels exactly the keys that occur in some row; the
    labels start with the keys of the first row, in the order of that row. *)
Theorem frame_of_rows (all_rows : list dict) :
  rows (DataFrame_of_rows all_rows) = all_rows
  /\ frame_ok (DataFrame_of_rows all_rows)
  /\ (forall k,
        In k (columns (DataFrame_of_rows all_rows))
        <-> exists r, In r all_rows /\ In k (keys r))
  /\ forall r rs,
       all_rows = r :: rs -> NoDup (keys r) ->
       exists added,
         columns (DataFrame_of_rows all_rows) = (keys r ++ added)%list.
Proof.
  unfold DataFrame_of_rows, frame_ok. cbn [columns rows].
  destruct (columns_of_rows_from all_rows [] (NoDup_nil _)) as (H1 & H2 & _).
  assert (G : forall k,
             In k (fold_left (fun cols r => union_columns cols (keys r))
                     all_rows [])
             <-> exists r, In r all_rows /\ In k (keys r)).
  { intros k. rewrite H2. cbn [In]. tauto. }
  split; [reflexivity|]. split; [|split; [exact G|]].
  - split; [exact H1|]. intros r k Hr Hk. apply G. exists r. auto.
  - intros r rs -> Hnd. cbn [fold_left].
    rewrite (union_columns_fresh (keys r) [] Hnd) by (intros x _ []).
    cbn [app].
    destruct (columns_of_rows_from rs (keys r) Hnd) as (_ & _ & H3).
    exact H3.
Qed.

(** ** The dataset reconciler: invariants and composition *)

Lemma In_select (rs : list dict) (mask : list bool) (r : dict) :
  In r (select rs mask) -> In r rs.
Proof.
  revert mask. induction rs as [|r0 rs IH]; intros mask H;
    cbn [select] in H; [destruct H|].
  destruct mask as [|b mask]; [destruct H|].
  destruct b; [destruct H as [<-|H]|]; [now left | right | right];
    now apply (IH mask).
Qed.

Lemma frame_ok_reorder (df : DataFrame) :
  frame_ok df -> frame_ok (reorder_columns df).
Proof.
  intros [Hnd Hk]. unfold frame_ok, reorder_columns. cbn [columns rows].
  pose proof (new_order_perm (columns df)) as P. split.
  - apply (Permutation_NoDup (Permutation_sym P) Hnd).
  - intros r k Hr Hin. apply (Permutation_in _ (Permutation_sym P)).
    now apply (Hk r).
Qed.

Lemma frame_ok_concat (a b : DataFrame) :
  frame_ok a -> frame_ok b -> frame_ok (concat a b).
Proof.
  intros [Ha Hka] [Hb Hkb]. unfold frame_ok, concat. cbn [columns rows].
  split; [now apply NoDup_union_columns|].
  intros r k Hr Hk. apply In_union_columns.
  apply in_app_or in Hr. destruct Hr as [Hr|Hr];
    [left; now apply (Hka r) | right; now apply (Hkb r)].
Qed.

(** X17.  [update_file] keeps frames well formed: when the incoming frame
    and the frame in the file have distinct labels that cover the keys of
    their rows, so has the frame it writes, in either mode. *)
Theorem update_file_keeps_frames (new_data_df : DataFrame) (mode : string)
    (file : file_state) (df : DataFrame) :
  frame_ok new_data_df -> frame_ok (load_existing_data file) ->
  update_file new_data_df mode file = (Ok tt, Some df) ->
  frame_ok df.
Proof.
  intros Hn He H. apply update_file_written, frame_to_write_cases in H.
  destruct H as [[_ ->] | (existing & _ & -> & _ & _ & ->)].
  - now apply frame_ok_reorder.
  - cbn [load_existing_data] in He. apply frame_ok_reorder.
    destruct He as [Hnd Hk], Hn as [_ Hk']. split; cbn [columns rows].
    + now apply NoDup_union_columns.
    + intros r k Hr Hin. apply In_union_columns.
      apply in_app_or in Hr. destruct Hr as [Hr|Hr].
      * left. apply (Hk r); [|exact Hin]. apply filter_In in Hr. tauto.
      * right. now apply (Hk' r).
Qed.

Lemma update_file_keeps_frames_witness :
  frame_ok incoming_A /\ frame_ok existing_AB
  /\ update_file incoming_A "update" (Some existing_AB)
     = (Ok tt, Some merged_AB)
  /\ frame_ok merged_AB.
Proof.
  assert (Hc : NoDup stored_columns)
    by (cbn; repeat constructor; cbn; intuition discriminate).
  assert (Hr : forall e m a s k,
             In k (keys (stored_row e m a s)) -> In k stored_columns)
    by (intros e m a s k H; exact H).
  assert (Hn : frame_ok incoming_A).
  { split; [exact Hc|]. intros r k [<-|[]]. apply Hr. }
  assert (He : frame_ok existing_AB).
  { split; [exact Hc|]. intros r k [<-|[<-|[<-|[]]]]; apply Hr. }
  split; [exact Hn|]. split; [exact He|]. split; [reflexivity|].
  exact (update_file_keeps_frames incoming_A "update" (Some existing_AB)
           merged_AB Hn He eq_refl).
Defined.

Lemma filter_twice (f : dict -> bool) (rs : list dict) :
  filter f (filter f rs) = filter f rs.
Proof.
  induction rs as [|r rs IH]; [reflexivity|].
  cbn [filter]. destruct (f r) eqn:E; [|exact IH].
  cbn [filter]. now rewrite E, IH.
Qed.

Lemma incoming_rows_mentioned (new_data_df : DataFrame) (r : dict) :
  In r (rows new_data_df) -> mentioned new_data_df r = true.
Proof.
  intros H. apply existsb_value_eqb. unfold event_keys.
  apply in_map_iff. exists r. auto.
Qed.

Lemma filter_incoming_rows (new_data_df : DataFrame) :
  filter (fun r => negb (mentioned new_data_df r)) (rows new_data_df) = [].
Proof.
  assert (G : forall rs,
             (forall r, In r rs -> mentioned new_data_df r = true) ->
             filter (fun r => negb (mentioned new_data_df r)) rs = []).
  { induction rs as [|r rs IH]; intros H; [reflexivity|].
    cbn [filter]. rewrite (H r) by now left. cbn [negb].
    apply IH. intros r' Hr'. apply H. now right. }
  apply G. apply incoming_rows_mentioned.
Qed.

(** Merging a batch into a frame that already ends with the rows of the
    batch. *)
Lemma frame_to_write_again (new_data_df : DataFrame) (cols : list string)
    (rs : list dict) :
  In "event_key" (columns new_data_df) ->
  (forall x, In x (columns new_data_df) -> In x cols) ->
  frame_to_write new_data_df "update"
    (Some (reorder_columns
             {| columns := cols; rows := (rs ++ rows new_data_df)%list |}))
  = Ok (reorder_columns
          {| columns := cols;
             rows := (filter (fun r => negb (mentioned new_data_df r)) rs
                      ++ rows new_data_df)%list |}).
Proof.
  intros Hn Hsub.
  assert (Hin : forall x, In x (columns new_data_df) ->
                          In x (new_order cols)).
  { intros x Hx.
    apply (Permutation_in _ (Permutation_sym (new_order_perm _))). auto. }
  rewrite frame_to_write_merge; [|discriminate | now apply Hin | exact Hn].
  unfold reorder_columns. cbn [columns rows].
  rewrite (union_columns_known _ _ Hin), new_order_twice.
  rewrite filter_app, filter_incoming_rows. now rewrite app_nil_r.
Qed.

(** X18.  The merge of lines 238-246 is idempotent on frames: when it
    makes the frame [df] out of a batch that has the [event_key] column and
    of the file, then, given the same batch and [df] as the frame read from
    the file, it makes [df] again.  (This is about the frames, not about
    what [pd.read_excel] reads from a sheet written earlier.) *)
Theorem upsert_idempotent (new_data_df : DataFrame) (file : file_state)
    (df : DataFrame) :
  In "event_key" (columns new_data_df) ->
  frame_to_write new_data_df "update" file = Ok df ->
  frame_to_write new_data_df "update" (Some df) = Ok df.
Proof.
  intros Hn H. apply frame_to_write_cases in H.
  destruct H as [[_ ->] | (existing & _ & _ & He & _ & ->)].
  - destruct new_data_df as [cols rs].
    exact (frame_to_write_again {| columns := cols; rows := rs |} cols []
             Hn (fun x Hx => Hx)).
  - rewrite frame_to_write_again.
    + now rewrite filter_twice.
    + exact Hn.
    + intros x Hx. apply In_union_columns. now right.
Qed.

Lemma upsert_idempotent_witness :
  frame_to_write incoming_A "update" (Some existing_AB) = Ok merged_AB
  /\ frame_to_write incoming_A "update" (Some merged_AB) = Ok merged_AB.
Proof.
  split; [reflexivity|].
  apply (upsert_idempotent incoming_A (Some existing_AB) merged_AB);
    [now left | reflexivity].
Defined.

Lemma filter_event_kept (new_data_df : DataFrame) (e : value)
    (rs : list dict) :
  filter (fun r => value_eqb (cell r "event_key") e)
    (filter (fun r => negb (mentioned new_data_df r)) rs)
  = if existsb (value_eqb e) (event_keys new_data_df) then []
    else filter (fun r => value_eqb (cell r "event_key") e) rs.
Proof.
  induction rs as [|r rs IH].
  - cbn [filter]. now destruct (existsb _ _).
  - cbn [filter]. destruct (value_eqb (cell r "event_key") e) eqn:E.
    + apply value_eqb_eq in E. unfold mentioned at 1. rewrite E.
      destruct (existsb (value_eqb e) (event_keys new_data_df)) eqn:M;
        cbn [negb filter].
      * exact IH.
      * rewrite E, value_eqb_refl, IH. reflexivity.
    + destruct (negb (mentioned new_data_df r)); cbn [filter];
        [rewrite E|]; exact IH.
Qed.

Lemma filter_event_absent (new_data_df : DataFrame) (e : value) :
  existsb (value_eqb e) (event_keys new_data_df) = false ->
  filter (fun r => value_eqb (cell r "event_key") e) (rows new_data_df) = [].
Proof.
  unfold event_keys. induction (rows new_data_df) as [|r rs IH];
    [reflexivity|].
  cbn [map existsb filter]. intros H. apply orb_false_iff in H.
  destruct H as [H1 H2].
  destruct (value_eqb (cell r "event_key") e) eqn:E; [|now apply IH].
  apply value_eqb_eq in E. rewrite E, value_eqb_refl in H1. discriminate.
Qed.

(** The rows of an event in the frame handed to [to_excel], outside
    Replace mode. *)
Lemma rows_of_event_written (new_data_df : DataFrame) (mode : string)
    (file : file_state) (df : DataFrame) (e : value) :
  mode <> "replace" ->
  frame_to_write new_data_df mode file = Ok df ->
  rows_of_event e df
  = if existsb (value_eqb e) (event_keys new_data_df)
    then rows_of_event e new_data_df
    else rows_of_event e (load_existing_data file).
Proof.
  intros Hm H. apply frame_to_write_rows in H.
  unfold rows_of_event. rewrite H. unfold kept_rows.
  apply String.eqb_neq in Hm. rewrite Hm.
  rewrite filter_app, filter_event_kept.
  destruct (existsb (value_eqb e) (event_keys new_data_df)) eqn:M.
  - reflexivity.
  - rewrite (filter_event_absent new_data_df e M). apply app_nil_r.
Qed.

(** X19.  Upsert replaces event by event: whenever [update_file] returns
    normally in [mode="update"], with or without a file, in the dataset it
    has written the rows of an event the batch mentions are exactly the
    batch's rows of that event, and the rows of any other event are exactly
    the rows stored for it before (none without a file), in the same
    order. *)
Theorem upsert_per_event (new_data_df : DataFrame) (file : file_state)
    (df : DataFrame) (e : value) :
  update_file new_data_df "update" file = (Ok tt, Some df) ->
  rows_of_event e df
  = if existsb (value_eqb e) (event_keys new_data_df)
    then rows_of_event e new_data_df
    else rows_of_event e (load_existing_data file).
Proof.
  intros H. apply update_file_written in H.
  apply (rows_of_event_written new_data_df "update" file df e);
    [discriminate | exact H].
Qed.

Lemma upsert_per_event_witness :
  update_file incoming_A "update" (Some existing_AB) = (Ok tt, Some merged_AB)
  /\ rows_of_event (VStr "A") merged_AB = [stored_row "A" "qm 1" "red" 7]
  /\ rows_of_event (VStr "B") merged_AB = [stored_row "B" "qm 1" "red" 2].
Proof.
  split; [reflexivity|]. split.
  - rewrite (upsert_per_event incoming_A (Some existing_AB) merged_AB
               (VStr "A") eq_refl).
    reflexivity.
  - rewrite (upsert_per_event incoming_A (Some existing_AB) merged_AB
               (VStr "B") eq_refl).
    reflexivity.
Defined.

(** ** The batch drivers *)

Lemma fetch_event_from_empty (get : transport) (event : value)
    (all_rows : list dict) (error_list : list error_record) :
  fetch_event get event all_rows error_list
  = (match fst (fetch_event get event [] []) with
     | Ok rows => Ok (all_rows ++ rows)%list
     | Raise e => Raise e
     end,
     (error_list ++ snd (fetch_event get event [] []))%list).
Proof.
  unfold fetch_event.
  destruct (py_getitem event "key") as [event_key|e];
    [|cbn [fst snd]; now rewrite app_nil_r].
  rewrite (fetch_event_matches_from_empty get event_key error_list).
  destruct (fetch_event_matches get event_key []) as [[rows|e] added];
    reflexivity.
Qed.

(** X20.  The events of a batch are fetched in order and independently:
    when no event makes the loop body raise, the rows collected are the rows
    of each event in turn and the errors the errors of each event in turn,
    after what was collected before; an event that fails (bad status, bad
    body, bad matches) adds its errors and takes no row away. *)
Theorem fetch_events_collects (get : transport) (events : list value)
    (all_rows : list dict) (error_list : list error_record) :
  Forall (fun event => event_ok get event = true) events ->
  fetch_events get events all_rows error_list
  = (Ok (all_rows ++ flat_map (event_rows get) events)%list,
     (error_list ++ flat_map (event_errors get) events)%list).
Proof.
  intros H. revert all_rows error_list.
  induction H as [|event events Hev _ IH]; intros all_rows error_list;
    cbn [fetch_events flat_map].
  - now rewrite !app_nil_r.
  - rewrite fetch_event_from_empty.
    unfold event_ok in Hev. unfold event_rows at 1, event_errors at 1.
    destruct (fst (fetch_event get event [] [])) as [rows|e];
      [|discriminate].
    rewrite IH. now rewrite <- !app_assoc.
Qed.

Lemma fetch_events_collects_witness :
  fetch_events two_semifinals (one_event ++ one_event)%list [] []
  = (Ok (flat_map (event_rows two_semifinals) (one_event ++ one_event))%list,
     flat_map (event_errors two_semifinals) (one_event ++ one_event)%list).
Proof.
  apply (fetch_events_collects two_semifinals (one_event ++ one_event)%list
           [] []).
  repeat constructor.
Defined.

Lemma fetch_selected_from_events (get : transport)
    (available_events : list value) (selected_indices : list nat) :
  Forall (fun idx => idx < List.length available_events) selected_indices ->
  forall all_rows error_list,
    fetch_selected get available_events selected_indices all_rows error_list
    = fetch_events get
        (map (fun idx => nth idx available_events VNone) selected_indices)
        all_rows error_list.
Proof.
  induction 1 as [|idx rest Hidx _ IH]; intros all_rows error_list;
    cbn [fetch_selected fetch_events map]; [reflexivity|].
  rewrite (nth_error_nth' available_events VNone Hidx).
  destruct (fetch_event get (nth idx available_events VNone) all_rows
              error_list) as [[rows|e] errs]; [apply IH | reflexivity].
Qed.

(** X21.  [add_replace_selected] fetches the selected events, in the order
    selected: with every index within [available_events], its loop does what
    the loop of [load_all_events] does on the list of the chosen events. *)
Theorem fetch_selected_as_events (get : transport)
    (available_events : list value) (selected_indices : list nat)
    (all_rows : list dict) (error_list : list error_record) :
  Forall (fun idx => idx < List.length available_events) selected_indices ->
  fetch_selected get available_events selected_indices all_rows error_list
  = fetch_events get
      (map (fun idx => nth idx available_events VNone) selected_indices)
      all_rows error_list.
Proof.
  intros H. now apply fetch_selected_from_events.
Qed.

Lemma fetch_selected_as_events_witness :
  fetch_selected two_semifinals one_event [0; 0] [] []
  = fetch_events two_semifinals (one_event ++ one_event)%list [] [].
Proof.
  apply (fetch_selected_as_events two_semifinals one_event [0; 0] [] []).
  repeat constructor.
Defined.

Lemma nth_seq_all (l : list value) :
  map (fun idx => nth idx l VNone) (seq 0 (List.length l)) = l.
Proof.
  assert (G : forall (l0 l1 : list value),
             map (fun idx => nth idx (l0 ++ l1)%list VNone)
               (seq (List.length l0) (List.length l1)) = l1).
  { intros l0 l1. revert l0.
    induction l1 as [|x l1 IH]; intros l0; [reflexivity|].
    cbn [List.length seq map]. f_equal.
    - now rewrite nth_middle.
    - specialize (IH (l0 ++ [x])%list).
      rewrite <- app_assoc, length_app in IH. cbn [app List.length] in IH.
      now rewrite Nat.add_1_r in IH. }
  exact (G [] l).
Qed.

(** X22.  With no file yet, selecting every available event, in order, and
    running [add_replace_selected] leaves the same file as
    [load_all_events]. *)
Theorem select_all_as_load_all (get : transport) (available_events : list value) :
  snd (add_replace_selected get available_events
         (seq 0 (List.length available_events)) None)
  = snd (load_all_events get available_events None).
Proof.
  unfold add_replace_selected, load_all_events.
  destruct available_events as [|event events]; [reflexivity|].
  change (seq 0 (List.length (event :: events)))
    with (0 :: seq 1 (List.length events)).
  cbv beta iota.
  change (0 :: seq 1 (List.length events))
    with (seq 0 (List.length (event :: events))).
  rewrite fetch_selected_from_events, nth_seq_all.
  - destruct (fetch_events get (event :: events) [] []) as [[rows|e] errs];
      [|reflexivity].
    unfold write_and_report. destruct rows; [reflexivity|].
    rewrite !update_file_no_file.
    now destruct (to_excel _ None) as [[u|x] f].
  - apply Forall_forall. intros idx Hidx. now apply in_seq in Hidx.
Qed.

Lemma frame_ok_of_rows (all_rows : list dict) :
  frame_ok (DataFrame_of_rows all_rows)
  /\ forall k,
       str_in k (columns (DataFrame_of_rows all_rows))
       = existsb (fun r => dict_mem r k) all_rows.
Proof.
  unfold DataFrame_of_rows, frame_ok. cbn [columns rows].
  destruct (columns_of_rows_from all_rows [] (NoDup_nil _)) as (H1 & H2 & _).
  assert (G : forall k,
             In k (fold_left (fun cols r => union_columns cols (keys r))
                     all_rows [])
             <-> exists r, In r all_rows /\ In k (keys r)).
  { intros k. rewrite H2. cbn [In]. tauto. }
  split; [split; [exact H1|]|].
  - intros r k Hr Hk. apply G. exists r. auto.
  - intros k. apply eq_true_iff_eq.
    rewrite str_in_In, G, existsb_exists.
    split; intros (r & Hr & Hk); exists r; (split; [exact Hr|]);
      now apply dict_mem_keys.
Qed.

Lemma rows_of_matches_flattened (ms : list value) :
  Forall flattened_row (rows_of_matches ms).
Proof.
  unfold rows_of_matches. apply Forall_forall. intros row H.
  apply in_flat_map in H. destruct H as (m & _ & H).
  unfold rows_of_match in H.
  destruct (process_match m) as [rows|e] eqn:E; [|destruct H].
  exists m, rows. auto.
Qed.

Lemma fetch_event_matches_flattened (get : transport) (event_key : value)
    (error_list : list error_record) (rows : list dict) :
  fst (fetch_event_matches get event_key error_list) = Ok rows ->
  Forall flattened_row rows.
Proof.
  unfold fetch_event_matches.
  destruct (status_code (get (matches_url event_key)) =? 200)%Z;
    [|intros [= <-]; constructor].
  destruct (json (get (matches_url event_key))) as [body|e];
    [|intros [= <-]; constructor].
  destruct (py_iter body) as [ms|e]; [|discriminate].
  rewrite process_matches_spec. cbn [fst app]. intros [= <-].
  apply rows_of_matches_flattened.
Qed.

Lemma fetch_events_flattened (get : transport) (events : list value) :
  forall all_rows error_list rows errs,
    Forall flattened_row all_rows ->
    fetch_events get events all_rows error_list = (Ok rows, errs) ->
    Forall flattened_row rows.
Proof.
  induction events as [|event events IH];
    intros all_rows error_list rows errs Hall; cbn [fetch_events].
  - now intros [= <- _].
  - unfold fetch_event.
    destruct (py_getitem event "key") as [event_key|e]; [|discriminate].
    destruct (fetch_event_matches get event_key error_list)
      as [[fetched|e] errs'] eqn:E; [|discriminate].
    apply IH. apply Forall_app. split; [exact Hall|].
    apply (fetch_event_matches_flattened get event_key error_list).
    now rewrite E.
Qed.

Lemma flattened_row_has (row : dict) (k : string) :
  flattened_row row -> In k derived_columns -> dict_mem row k = true.
Proof.
  intros (m & rows & H & Hin) Hk.
  now apply (row_columns m rows row H Hin).
Qed.

(** X23.  When the events yield at least one row and [load_all_events]
    returns normally, the file holds, whatever it held before, a frame of
    exactly the rows fetched, each of them a row of [process_match]; its
    labels are distinct and cover the rows' keys, the six derived columns
    are among them, and they begin with [event_key] (when some row has it),
    [match], then [winning_alliance] (when some row has it), before every
    other column. *)
Theorem load_all_events_writes (get : transport) (events : list value)
    (file file' : file_state) (all_rows : list dict)
    (error_list : list error_record) (notices : list notice) :
  fetch_events get events [] [] = (Ok all_rows, error_list) ->
  all_rows <> [] ->
  load_all_events get events file = (Ok notices, file') ->
  exists df others,
    file' = Some df
    /\ rows df = all_rows
    /\ Forall flattened_row (rows df)
    /\ frame_ok df
    /\ (forall k, In k derived_columns -> In k (columns df))
    /\ columns df
       = ((if existsb (fun r => dict_mem r "event_key") all_rows
           then ["event_key"] else [])
          ++ "match"
          :: (if existsb (fun r => dict_mem r "winning_alliance") all_rows
              then ["winning_alliance"] else [])
          ++ others)%list
    /\ Forall (fun c => other_column c = true) others.
Proof.
  intros Hf Hne Hrun.
  pose proof (fetch_events_flattened get events [] [] all_rows error_list
                (Forall_nil _) Hf) as Hrows.
  destruct (frame_ok_of_rows all_rows) as [Hok Hcols].
  assert (Hder : forall k, In k derived_columns ->
                           str_in k (columns (DataFrame_of_rows all_rows))
                           = true).
  { intros k Hk. rewrite Hcols.
    destruct all_rows as [|r rs]; [congruence|].
    cbn [existsb]. inversion Hrows; subst.
    now rewrite (flattened_row_has r k). }
  exists (reorder_columns (DataFrame_of_rows all_rows)),
    (filter other_column (columns (DataFrame_of_rows all_rows))).
  split; [|split; [reflexivity|split; [exact Hrows|split;
    [now apply frame_ok_reorder|split; [|split]]]]].
  - unfold load_all_events in Hrun. rewrite Hf in Hrun.
    unfold write_and_report in Hrun.
    destruct all_rows as [|r rs]; [congruence|].
    destruct (update_file (DataFrame_of_rows (r :: rs)) "replace" file)
      as [[u|e] f] eqn:E; [|discriminate].
    injection Hrun as _ <-.
    apply update_file_Ok in E. destruct E as (df & -> & E).
    rewrite frame_to_write_replace in E. congruence.
  - intros k Hk. cbn [reorder_columns columns].
    apply (Permutation_in _ (Permutation_sym (new_order_perm _))).
    apply str_in_In. now apply Hder.
  - cbn [reorder_columns columns]. rewrite new_order_closed.
    destruct Hok as [Hnd _].
    rewrite (list_remove_NoDup "event_key") by assumption.
    rewrite (list_remove_NoDup "match") by now apply NoDup_filter.
    rewrite (list_remove_NoDup "winning_alliance")
      by now do 2 apply NoDup_filter.
    rewrite filter_pinned. unfold pinned. cbn [filter].
    rewrite (Hder "match") by (cbn; tauto).
    rewrite !Hcols.
    destruct (existsb (fun r => dict_mem r "event_key") all_rows),
      (existsb (fun r => dict_mem r "winning_alliance") all_rows);
      reflexivity.
  - apply Forall_forall. intros c Hc. now apply filter_In in Hc.
Qed.

Lemma load_all_events_writes_witness :
  exists df others,
    load_all_events two_semifinals one_event (Some existing_AB)
    = (Ok [ShowInfo "Success" "File replaced with all TBA events data."],
       Some df)
    /\ rows df = rows_of_matches [semifinal 1; semifinal 2]
    /\ columns df = ("event_key" :: "match" :: others)%list.
Proof.
  assert (E : load_all_events two_semifinals one_event (Some existing_AB)
              = (Ok [ShowInfo "Success"
                       "File replaced with all TBA events data."],
                 snd (load_all_events two_semifinals one_event
                        (Some existing_AB))))
    by (vm_compute; reflexivity).
  destruct (load_all_events_writes two_semifinals one_event (Some existing_AB)
              _ (rows_of_matches [semifinal 1; semifinal 2]) [] _
              eq_refl ltac:(discriminate) E)
    as (df & others & F & R & _ & _ & _ & C & _).
  exists df, others. rewrite <- F. auto.
Defined.

(** X24.  Per event, what [add_replace_selected] leaves in the file
    whenever it returns normally: for an event among the fetched rows,
    exactly the fetched rows of that event, and for any other event exactly
    the rows stored before (none without a file). *)
Theorem add_replace_selected_per_event (get : transport)
    (available_events : list value) (selected_indices : list nat)
    (file file' : file_state) (all_rows : list dict)
    (error_list : list error_record) (notices : list notice) (e : value) :
  fetch_selected get available_events selected_indices [] []
  = (Ok all_rows, error_list) ->
  add_replace_selected get available_events selected_indices file
  = (Ok notices, file') ->
  rows_of_event e (load_existing_data file')
  = if existsb (value_eqb e) (map (fun r => cell r "event_key") all_rows)
    then filter (fun r => value_eqb (cell r "event_key") e) all_rows
    else rows_of_event e (load_existing_data file).
Proof.
  intros Hf Hrun. unfold add_replace_selected in Hrun.
  destruct selected_indices as [|idx rest].
  - cbn [fetch_selected] in Hf. injection Hf as <- _.
    injection Hrun as _ <-. reflexivity.
  - rewrite Hf in Hrun. unfold write_and_report in Hrun.
    destruct all_rows as [|r rs].
    + injection Hrun as _ <-. reflexivity.
    + destruct (update_file (DataFrame_of_rows (r :: rs)) "update" file)
        as [[u|x] f] eqn:E; [|discriminate].
      injection Hrun as _ <-.
      apply update_file_Ok in E. destruct E as (df & -> & E).
      cbn [load_existing_data].
      apply (rows_of_event_written (DataFrame_of_rows (r :: rs)) "update"
               file df e); [discriminate | exact E].
Qed.

Lemma add_replace_selected_per_event_witness :
  exists file',
    add_replace_selected two_semifinals one_event [0] (Some existing_AB)
    = (Ok [ShowInfo "Success" "Selected events updated in file."], file')
    /\ rows_of_event (VStr "B") (load_existing_data file')
       = [stored_row "B" "qm 1" "red" 2]
    /\ rows_of_event (VStr "2025ex") (load_existing_data file')
       = rows_of_matches [semifinal 1; semifinal 2].
Proof.
  assert (E : add_replace_selected two_semifinals one_event [0]
                (Some existing_AB)
              = (Ok [ShowInfo "Success" "Selected events updated in file."],
                 snd (add_replace_selected two_semifinals one_event [0]
                        (Some existing_AB))))
    by (vm_compute; reflexivity).
  eexists. split; [exact E|]. split.
  - rewrite (add_replace_selected_per_event two_semifinals one_event [0]
               (Some existing_AB) _
               (rows_of_matches [semifinal 1; semifinal 2]) [] _
               (VStr "B") eq_refl E).
    reflexivity.
  - rewrite (add_replace_selected_per_event two_semifinals one_event [0]
               (Some existing_AB) _
               (rows_of_matches [semifinal 1; semifinal 2]) [] _
               (VStr "2025ex") eq_refl E).
    reflexivity.
Defined.

(** X25.  When rows were fetched but none of them has an [event_key] and
    the file exists, [add_replace_selected] raises [KeyError] (line 242) and
    the file stays as it was. *)
Theorem add_replace_selected_no_event_key (get : transport)
    (available_events : list value) (selected_indices : list nat)
    (existing : DataFrame) (all_rows : list dict)
    (error_list : list error_record) :
  fetch_selected get available_events selected_indices [] []
  = (Ok all_rows, error_list) ->
  all_rows <> [] ->
  existsb (fun r => dict_mem r "event_key") all_rows = false ->
  add_replace_selected get available_events selected_indices (Some existing)
  = (Raise KeyError, Some existing).
Proof.
  intros Hf Hne Hek.
  destruct (frame_ok_of_rows all_rows) as [_ Hcols].
  unfold add_replace_selected.
  destruct selected_indices as [|idx rest].
  - cbn [fetch_selected] in Hf. congruence.
  - rewrite Hf. unfold write_and_report.
    destruct all_rows as [|r rs]; [congruence|].
    rewrite update_file_no_event_key; [reflexivity | discriminate |].
    intros Hin. apply str_in_In in Hin. rewrite Hcols in Hin. congruence.
Qed.

Lemma add_replace_selected_no_event_key_witness :
  add_replace_selected
    (serve (VList [VDict [("alliances", VDict []);
                          ("score_breakdown", VDict [])]]))
    one_event [0] (Some existing_AB)
  = (Raise KeyError, Some existing_AB).
Proof.
  apply (add_replace_selected_no_event_key
           (serve (VList [VDict [("alliances", VDict []);
                                 ("score_breakdown", VDict [])]]))
           one_event [0] existing_AB
           (rows_of_matches [VDict [("alliances", VDict []);
                                    ("score_breakdown", VDict [])]]) []).
  - reflexivity.
  - discriminate.
  - reflexivity.
Defined.

(** ** Column widths *)

Lemma longest_from_ge (col : list value) :
  forall start, start <= longest_from start col.
Proof.
  unfold longest_from.
  induction col as [|v col IH]; intros start; cbn [fold_left]; [lia|].
  destruct (truthy v).
  - eapply Nat.le_trans; [|apply IH]. apply Nat.le_max_l.
  - apply IH.
Qed.

Lemma longest_from_fits (col : list value) (v : value) :
  In v col -> truthy v = true ->
  forall start, String.length (py_str v) <= longest_from start col.
Proof.
  unfold longest_from.
  induction col as [|x col IH]; intros Hin Hv start; [destruct Hin|].
  cbn [fold_left]. destruct Hin as [->|Hin].
  - rewrite Hv. eapply Nat.le_trans; [|apply longest_from_ge].
    apply Nat.le_max_r.
  - now apply IH.
Qed.

Lemma longest_from_attained (col : list value) :
  forall start,
    longest_from start col = start
    \/ exists v, In v col /\ truthy v = true
                 /\ longest_from start col = String.length (py_str v).
Proof.
  unfold longest_from.
  induction col as [|x col IH]; intros start; cbn [fold_left]; [now left|].
  destruct (truthy x) eqn:T.
  - destruct (IH (Nat.max start (String.length (py_str x))))
      as [E|(v & Hin & Hv & E)].
    + rewrite E.
      destruct (Nat.max_spec start (String.length (py_str x)))
        as [[_ M]|[_ M]]; rewrite M.
      * right. exists x. split; [now left | auto].
      * now left.
    + right. exists v. split; [now right | auto].
  - destruct (IH start) as [E|(v & Hin & Hv & E)]; [now left|].
    right. exists v. split; [now right | auto].
Qed.

(** X26.  [auto_adjust_excel_columns] sets one width per column, two more
    than the longest text among the column's truthy cells: every such cell
    fits, some cell attains the width unless it is the minimum 2, and cells
    that are empty, zero, false or the empty string do not count. *)
Theorem column_widths (ws : worksheet) :
  List.length (auto_adjust_excel_columns ws) = List.length ws
  /\ forall i col,
       nth_error ws i = Some col ->
       exists width,
         nth_error (auto_adjust_excel_columns ws) i = Some width
         /\ (forall v, In v col -> truthy v = true ->
                       String.length (py_str v) + 2 <= width)
         /\ (width = 2
             \/ exists v, In v col /\ truthy v = true
                          /\ width = String.length (py_str v) + 2).
Proof.
  unfold auto_adjust_excel_columns. split; [apply length_map|].
  intros i col Hi. exists (column_width col). split; [|split].
  - now rewrite nth_error_map, Hi.
  - intros v Hin Hv. unfold column_width.
    pose proof (longest_from_fits col v Hin Hv 0). lia.
  - unfold column_width.
    destruct (longest_from_attained col 0) as [E|(v & Hin & Hv & E)].
    + left. now rewrite E.
    + right. exists v. rewrite E. auto.
Qed.

Example column_widths_example :
  auto_adjust_excel_columns
    [[VStr "event_key"; VStr "2025ex"; VNone];
     [VStr "fouls"; VInt 0; VInt 0];
     [VStr "x"; VInt 123456; VBool false]]
  = [11; 7; 8].
Proof. reflexivity. Qed.
